(** * Version history of the document editor

    A shallow embedding of the version-history subsystem:

    - the storage side, i.e. the two tables [documents] and
      [document_versions] together with the row trigger
      [create_document_version] of the SQL schema;
    - the client store of [stores/documentStore.ts] ([createDocument],
      [updateDocument], [deleteDocument], [fetchVersionHistory],
      [restoreVersion]);
    - the two page handlers that drive the store: [handleCreateDocument]
      of the dashboard and the debounced auto-save of the document page.

    Conventions.  Identifiers (UUIDs) and texts are [string]s, one [ascii]
    standing for one code unit; timestamps are [Z] (milliseconds).  The
    storage service is external: every request of the client takes the
    failure the service may answer with ([option Thrown]), the fresh row
    identifier a default [gen_random_uuid()] would draw, and the clock
    values [NOW()] / [new Date()] read.  The session user is the owner of
    the rows touched (single writer), so that the row-level policies of the
    schema are satisfied and left out. *)

From Stdlib Require Import ZArith.
From stdpp Require Import gmap strings list fin_maps sorting.

Open Scope string_scope.
Open Scope list_scope.

(** ** Data model ([lib/supabase.ts] and the table definitions) *)

Inductive ChangeType : Set :=
| created
| title_updated
| content_modified
| restored.

Global Instance ChangeType_eq_dec : EqDecision ChangeType.
Proof. solve_decision. Defined.

Record Document := {
  doc_id : string;
  doc_title : string;
  doc_content : string;
  doc_created_at : Z;
  doc_updated_at : Z;
  doc_user_id : string
}.

Record DocumentVersion := {
  ver_id : string;
  ver_document_id : string;
  ver_title : string;
  ver_content : string;
  ver_change_type : ChangeType;
  ver_user_id : string;
  ver_user_email : option string;
  ver_created_at : Z
}.

Record User := {
  user_id : string;
  user_email : string
}.

(** What a [catch] clause can receive: an instance of [Error], or any
    other value (a plain error object of the storage client). *)
Inductive Thrown :=
| ErrorInstance (message : string)
| PlainObject (message : string).

(** [error instanceof Error ? error.message : fallback] *)
Definition error_text (fallback : string) (e : Thrown) : string :=
  match e with
  | ErrorInstance m => m
  | PlainObject _ => fallback
  end.

Inductive result (A : Type) :=
| Ok (a : A)
| Failed (e : Thrown).
Arguments Ok {A} a.
Arguments Failed {A} e.

(** Errors raised by the tables' own constraints. *)
Definition unique_violation : Thrown :=
  PlainObject "duplicate key value violates unique constraint".
Definition foreign_key_violation : Thrown :=
  PlainObject "insert or update violates foreign key constraint".
Definition no_single_row : Thrown :=
  PlainObject "JSON object requested, multiple (or no) rows returned".

(** ** SQL text comparison

    [content] is a nullable column ([TEXT DEFAULT '']), [title] is
    [NOT NULL]; [!=] on a NULL yields NULL, and [IF] takes its branch only
    on TRUE.  [None] is NULL. *)

Definition sql_text := option string.

Definition sql_ne (a b : sql_text) : option bool :=
  match a, b with
  | Some x, Some y => Some (negb (String.eqb x y))
  | _, _ => None
  end.

Definition sql_and (p q : option bool) : option bool :=
  match p, q with
  | Some false, _ => Some false
  | _, Some false => Some false
  | Some true, Some true => Some true
  | _, _ => None
  end.

Definition sql_is_true (p : option bool) : bool :=
  match p with
  | Some true => true
  | _ => false
  end.

Inductive TgOp := INSERT | UPDATE.

(** The [IF ... ELSIF ... ELSE] of [create_document_version]: the change
    type to record, or [None] for the [RETURN NEW] of the last branch.
    Only the [UPDATE] case reads [OLD]. *)
Definition change_type_val (tg_op : TgOp)
    (old_title : sql_text) (old_content : sql_text)
    (new_title : sql_text) (new_content : sql_text) : option ChangeType :=
  match tg_op with
  | INSERT => Some created
  | UPDATE =>
      if sql_is_true (sql_and (sql_ne old_title new_title)
                              (sql_ne old_content new_content))
      then Some content_modified
      else if sql_is_true (sql_ne old_title new_title)
      then Some title_updated
      else if sql_is_true (sql_ne old_content new_content)
      then Some content_modified
      else None
  end.

(** The Recorder as the specification words it: first match wins. *)
Definition recorder_spec (first_write : bool)
    (prev_title prev_content title content : string) : option ChangeType :=
  let title_differs := negb (String.eqb prev_title title) in
  let content_differs := negb (String.eqb prev_content content) in
  if first_write then Some created
  else if title_differs && content_differs then Some content_modified
  else if title_differs && negb content_differs then Some title_updated
  else if negb title_differs && content_differs then Some content_modified
  else None.

Definition tg_op_of (first_write : bool) : TgOp :=
  if first_write then INSERT else UPDATE.

(** ** The storage side

    [documents] has [id] as primary key, hence a finite map from ids to
    rows; [document_versions] is kept in insertion order.  Rows written by
    the client always carry a text [content] ([createDocument] inserts
    [''], saves and restores send strings), so rows hold a [string] and
    enter the trigger's comparisons as non-NULL values. *)

Record DB := {
  db_documents : gmap string Document;
  db_versions : list DocumentVersion
}.

Definition db_empty : DB := {| db_documents := ∅; db_versions := [] |}.

(** [INSERT INTO document_versions]: primary key on [id], foreign key
    [document_id REFERENCES documents(id)]. *)
Definition insert_version (docs : gmap string Document)
    (vs : list DocumentVersion) (row : DocumentVersion)
    : result (list DocumentVersion) :=
  if existsb (fun v => String.eqb (ver_id v) (ver_id row)) vs
  then Failed unique_violation
  else match docs !! ver_document_id row with
       | None => Failed foreign_key_violation
       | Some _ => Ok (vs ++ [row])
       end.

(** The trigger function, fired [AFTER INSERT OR UPDATE ON documents FOR
    EACH ROW]; [vid] and [now] are the defaults of the new version's [id]
    and [created_at].  An exception of the trigger's [INSERT] aborts the
    statement that fired it. *)
Definition version_of (NEW : Document) (change : ChangeType)
    (vid : string) (now : Z) : DocumentVersion :=
  {| ver_id := vid;
     ver_document_id := doc_id NEW;
     ver_title := doc_title NEW;
     ver_content := doc_content NEW;
     ver_change_type := change;
     ver_user_id := doc_user_id NEW;
     ver_user_email := None;
     ver_created_at := now |}.

Definition create_document_version (tg_op : TgOp) (OLD : option Document)
    (NEW : Document) (vid : string) (now : Z)
    (docs : gmap string Document) (vs : list DocumentVersion)
    : result (list DocumentVersion) :=
  match change_type_val tg_op (doc_title <$> OLD) (doc_content <$> OLD)
          (Some (doc_title NEW)) (Some (doc_content NEW)) with
  | Some change => insert_version docs vs (version_of NEW change vid now)
  | None => Ok vs
  end.

(** [.from('documents').insert({title, content, user_id}).select().single()] *)
Definition insert_document (db : DB) (id vid : string) (now : Z)
    (title content user : string) : result (DB * Document) :=
  match db_documents db !! id with
  | Some _ => Failed unique_violation
  | None =>
      let row := {| doc_id := id; doc_title := title; doc_content := content;
                    doc_created_at := now; doc_updated_at := now;
                    doc_user_id := user |} in
      let docs := <[id := row]> (db_documents db) in
      match create_document_version INSERT None row vid now docs
              (db_versions db) with
      | Ok vs => Ok ({| db_documents := docs; db_versions := vs |}, row)
      | Failed e => Failed e
      end
  end.

(** The fields a save or a restore sends ([Partial<Document>] as its
    callers fill it: [title] and [content]). *)
Record Partial_Document := {
  upd_title : option string;
  upd_content : option string
}.

(** [{ ...doc, ...updates, updated_at }] *)
Definition apply_updates (doc : Document) (updates : Partial_Document)
    (updated_at : Z) : Document :=
  {| doc_id := doc_id doc;
     doc_title := default (doc_title doc) (upd_title updates);
     doc_content := default (doc_content doc) (upd_content updates);
     doc_created_at := doc_created_at doc;
     doc_updated_at := updated_at;
     doc_user_id := doc_user_id doc |}.

(** [BEFORE UPDATE] trigger [update_updated_at_column]. *)
Definition update_updated_at_column (now : Z) (NEW : Document) : Document :=
  {| doc_id := doc_id NEW; doc_title := doc_title NEW;
     doc_content := doc_content NEW; doc_created_at := doc_created_at NEW;
     doc_updated_at := now; doc_user_id := doc_user_id NEW |}.

(** [.from('documents').update({...updates, updated_at}).eq('id', id)]:
    no matching row is not an error. *)
Definition update_document (db : DB) (id : string)
    (updates : Partial_Document) (updated_at : Z) (vid : string) (now : Z)
    : result DB :=
  match db_documents db !! id with
  | None => Ok db
  | Some old =>
      let new := update_updated_at_column now
                   (apply_updates old updates updated_at) in
      let docs := <[id := new]> (db_documents db) in
      match create_document_version UPDATE (Some old) new vid now docs
              (db_versions db) with
      | Ok vs => Ok {| db_documents := docs; db_versions := vs |}
      | Failed e => Failed e
      end
  end.

(** [.from('documents').delete().eq('id', id)], with the [ON DELETE
    CASCADE] of [document_versions.document_id]. *)
Definition delete_document (db : DB) (id : string) : DB :=
  {| db_documents := delete id (db_documents db);
     db_versions :=
       filter (fun v => ver_document_id v ≠ id) (db_versions db) |}.

(** [.from('documents').select('*').order('updated_at', {ascending: false})] *)
Definition updated_later_or_same (d e : Document) : Prop :=
  (doc_updated_at e <= doc_updated_at d)%Z.

Global Instance updated_later_or_same_dec : RelDecision updated_later_or_same.
Proof. intros d e. unfold updated_later_or_same. apply _. Defined.

Definition select_documents (db : DB) : list Document :=
  merge_sort updated_later_or_same (map_to_list (db_documents db)).*2.

(** [.from('documents').select('*').eq('id', id).single()] *)
Definition select_document (db : DB) (id : string) : result Document :=
  match db_documents db !! id with
  | Some doc => Ok doc
  | None => Failed no_single_row
  end.

(** [.from('document_versions').select('*').eq('id', versionId).single()] *)
Definition select_version (db : DB) (versionId : string)
    : result DocumentVersion :=
  match filter (fun v => ver_id v = versionId) (db_versions db) with
  | [v] => Ok v
  | _ => Failed no_single_row
  end.

(** [ORDER BY created_at DESC] *)
Definition newer_or_same (v w : DocumentVersion) : Prop :=
  (ver_created_at w <= ver_created_at v)%Z.

Global Instance newer_or_same_dec : RelDecision newer_or_same.
Proof. intros v w. unfold newer_or_same. apply _. Defined.

(** [.from('document_versions').select('*, user_email:user_id(email)')
    .eq('document_id', documentId).order('created_at', {ascending: false})]:
    each row comes with the embedded resource of its [user_id], [None]
    when the service resolves no email for it. *)
Definition select_version_history (embed : string -> option string)
    (db : DB) (documentId : string)
    : list (DocumentVersion * option string) :=
  (fun v => (v, embed (ver_user_id v))) <$>
    merge_sort newer_or_same
      (filter (fun v => ver_document_id v = documentId) (db_versions db)).

(** A request to the service: it may fail on its own, before any
    statement runs. *)
Definition request {A : Type} (fault : option Thrown) (r : result A)
    : result A :=
  match fault with
  | Some e => Failed e
  | None => r
  end.

(** ** The client store ([stores/documentStore.ts]) *)

Record DocumentState := {
  documents : list Document;
  currentDocument : option Document;
  versions : list DocumentVersion;
  loading : bool;
  versionsLoading : bool;
  error : option string
}.

Definition initial_state : DocumentState :=
  {| documents := []; currentDocument := None; versions := [];
     loading := false; versionsLoading := false; error := None |}.

(** [set({ field: value })] merges one field into the state. *)
Definition set_documents (x : list Document) (s : DocumentState) :=
  {| documents := x; currentDocument := currentDocument s;
     versions := versions s; loading := loading s;
     versionsLoading := versionsLoading s; error := error s |}.
Definition set_currentDocument (x : option Document) (s : DocumentState) :=
  {| documents := documents s; currentDocument := x;
     versions := versions s; loading := loading s;
     versionsLoading := versionsLoading s; error := error s |}.
Definition set_versions (x : list DocumentVersion) (s : DocumentState) :=
  {| documents := documents s; currentDocument := currentDocument s;
     versions := x; loading := loading s;
     versionsLoading := versionsLoading s; error := error s |}.
Definition set_loading (x : bool) (s : DocumentState) :=
  {| documents := documents s; currentDocument := currentDocument s;
     versions := versions s; loading := x;
     versionsLoading := versionsLoading s; error := error s |}.
Definition set_versionsLoading (x : bool) (s : DocumentState) :=
  {| documents := documents s; currentDocument := currentDocument s;
     versions := versions s; loading := loading s;
     versionsLoading := x; error := error s |}.
Definition set_error (x : option string) (s : DocumentState) :=
  {| documents := documents s; currentDocument := currentDocument s;
     versions := versions s; loading := loading s;
     versionsLoading := versionsLoading s; error := x |}.

Definition fetchDocuments (fault : option Thrown) (db : DB)
    (s : DocumentState) : DocumentState :=
  let s := set_error None (set_loading true s) in
  match request fault (Ok (select_documents db)) with
  | Failed e =>
      set_loading false
        (set_error (Some (error_text "Failed to fetch documents" e)) s)
  | Ok data => set_loading false (set_documents data s)
  end.

Definition fetchDocument (fault : option Thrown) (db : DB) (id : string)
    (s : DocumentState) : DocumentState :=
  let s := set_error None (set_loading true s) in
  match request fault (select_document db id) with
  | Failed e =>
      set_loading false
        (set_error (Some (error_text "Failed to fetch document" e)) s)
  | Ok data => set_loading false (set_currentDocument (Some data) s)
  end.

(** [createDocument]: returns the new id or rethrows. *)
Definition createDocument (user : option User) (fault : option Thrown)
    (id vid : string) (now : Z) (db : DB) (title : string)
    (s : DocumentState) : DB * DocumentState * result string :=
  let s := set_error None (set_loading true s) in
  let catch e :=
    (db,
     set_loading false
       (set_error (Some (error_text "Failed to create document" e)) s),
     Failed e) in
  match user with
  | None => catch (ErrorInstance "User not authenticated")
  | Some u =>
      match request fault
              (insert_document db id vid now title "" (user_id u)) with
      | Failed e => catch e
      | Ok (db', data) =>
          (db',
           set_loading false (set_documents (data :: documents s) s),
           Ok (doc_id data))
      end
  end.

(** The clock readings and defaults one update of a document consumes. *)
Record UpdateEnv := {
  ue_fault : option Thrown;   (* failure of the update request *)
  ue_vid : string;            (* id of the version the trigger may insert *)
  ue_now : Z;                 (* NOW() of the statement *)
  ue_sent_at : Z;             (* new Date() in the request *)
  ue_current_at : Z;          (* new Date() for currentDocument *)
  ue_list_at : Z              (* new Date() for the documents list *)
}.

Definition updateDocument (env : UpdateEnv) (db : DB) (id : string)
    (updates : Partial_Document) (s : DocumentState) : DB * DocumentState :=
  match request (ue_fault env)
          (update_document db id updates (ue_sent_at env)
             (ue_vid env) (ue_now env)) with
  | Failed e =>
      (db, set_error (Some (error_text "Failed to update document" e)) s)
  | Ok db' =>
      let s1 :=
        match currentDocument s with
        | Some currentDoc =>
            if String.eqb (doc_id currentDoc) id
            then set_currentDocument
                   (Some (apply_updates currentDoc updates
                            (ue_current_at env))) s
            else s
        | None => s
        end in
      (db',
       set_documents
         (map (fun doc =>
                 if String.eqb (doc_id doc) id
                 then apply_updates doc updates (ue_list_at env)
                 else doc)
              (documents s1)) s1)
  end.

Definition deleteDocument (fault : option Thrown) (db : DB) (id : string)
    (s : DocumentState) : DB * DocumentState :=
  let s := set_error None (set_loading true s) in
  match request fault (Ok (delete_document db id)) with
  | Failed e =>
      (db,
       set_loading false
         (set_error (Some (error_text "Failed to delete document" e)) s))
  | Ok db' =>
      let s1 :=
        set_loading false
          (set_documents
             (filter (fun doc => doc_id doc ≠ id) (documents s)) s) in
      (db',
       match currentDocument s1 with
       | Some currentDoc =>
           if String.eqb (doc_id currentDoc) id
           then set_currentDocument None s1
           else s1
       | None => s1
       end)
  end.

Definition clearError (s : DocumentState) : DocumentState :=
  set_error None s.

Definition clearVersions (s : DocumentState) : DocumentState :=
  set_versions [] s.

(** [version.user_email?.email || 'Unknown user']: a missing resource and
    an empty email both give the fallback. *)
Definition display_email (embedded : option string) : string :=
  match embedded with
  | Some email => if String.eqb email "" then "Unknown user" else email
  | None => "Unknown user"
  end.

(** [{ ...version, user_email: ... }] *)
Definition with_user_email (row : DocumentVersion * option string)
    : DocumentVersion :=
  let v := row.1 in
  {| ver_id := ver_id v; ver_document_id := ver_document_id v;
     ver_title := ver_title v; ver_content := ver_content v;
     ver_change_type := ver_change_type v; ver_user_id := ver_user_id v;
     ver_user_email := Some (display_email row.2);
     ver_created_at := ver_created_at v |}.

(** [fetchVersionHistory] up to its first [await] ... *)
Definition fetchVersionHistory_start (s : DocumentState) : DocumentState :=
  set_error None (set_versionsLoading true s).

(** ... and from the answer of the service on. *)
Definition fetchVersionHistory_finish (fault : option Thrown)
    (embed : string -> option string) (db : DB) (documentId : string)
    (s : DocumentState) : DocumentState :=
  match request fault (Ok (select_version_history embed db documentId)) with
  | Failed e =>
      set_versionsLoading false
        (set_error
           (Some (error_text "Failed to fetch version history" e)) s)
  | Ok data =>
      set_versionsLoading false (set_versions (with_user_email <$> data) s)
  end.

Definition fetchVersionHistory (fault : option Thrown)
    (embed : string -> option string) (db : DB) (documentId : string)
    (s : DocumentState) : DocumentState :=
  fetchVersionHistory_finish fault embed db documentId
    (fetchVersionHistory_start s).

(** What one restore consumes. *)
Record RestoreEnv := {
  re_select_fault : option Thrown;  (* failure of reading the version *)
  re_update : UpdateEnv;            (* the update of the document *)
  re_user : option User;            (* supabase.auth.getUser() *)
  re_insert_fault : option Thrown;  (* failure of the version insert *)
  re_insert_vid : string;           (* default id of the inserted version *)
  re_insert_now : Z                 (* its default created_at *)
}.

Definition restore_updates (version : DocumentVersion) : Partial_Document :=
  {| upd_title := Some (ver_title version);
     upd_content := Some (ver_content version) |}.

(** The row of the [insert] of [restoreVersion]. *)
Definition restored_version (env : RestoreEnv) (documentId : string)
    (version : DocumentVersion) (user : User) : DocumentVersion :=
  {| ver_id := re_insert_vid env;
     ver_document_id := documentId;
     ver_title := ver_title version;
     ver_content := ver_content version;
     ver_change_type := restored;
     ver_user_id := user_id user;
     ver_user_email := None;
     ver_created_at := re_insert_now env |}.

(** [restoreVersion].  The answer of the version insert is not looked at,
    and the final [fetchVersionHistory] is started but not awaited: the
    state returned is the one in which the promise resolves. *)
Definition restoreVersion (env : RestoreEnv) (db : DB)
    (documentId versionId : string) (s : DocumentState)
    : DB * DocumentState :=
  let s := set_error None (set_loading true s) in
  let catch (db' : DB) e :=
    (db',
     set_loading false
       (set_error (Some (error_text "Failed to restore version" e)) s)) in
  match request (re_select_fault env) (select_version db versionId) with
  | Failed versionError => catch db versionError
  | Ok version =>
      let upd := re_update env in
      match request (ue_fault upd)
              (update_document db documentId (restore_updates version)
                 (ue_sent_at upd) (ue_vid upd) (ue_now upd)) with
      | Failed updateError => catch db updateError
      | Ok db1 =>
          let db2 :=
            match re_user env with
            | Some user =>
                match request (re_insert_fault env)
                        (insert_version (db_documents db1) (db_versions db1)
                           (restored_version env documentId version user))
                with
                | Ok vs =>
                    {| db_documents := db_documents db1; db_versions := vs |}
                | Failed _ => db1
                end
            | None => db1
            end in
          let s1 :=
            match currentDocument s with
            | Some currentDoc =>
                if String.eqb (doc_id currentDoc) documentId
                then set_currentDocument
                       (Some (apply_updates currentDoc
                                (restore_updates version)
                                (ue_current_at upd))) s
                else s
            | None => s
            end in
          let s2 :=
            set_loading false
              (set_documents
                 (map (fun doc =>
                         if String.eqb (doc_id doc) documentId
                         then apply_updates doc (restore_updates version)
                                (ue_list_at upd)
                         else doc)
                    (documents s1)) s1) in
          (db2, fetchVersionHistory_start s2)
      end
  end.

(** ** Runs of the store against the storage *)

Inductive Action :=
| FetchDocuments (fault : option Thrown)
| FetchDocument (fault : option Thrown) (id : string)
| ClearError
| ClearVersions
| CreateDocument (user : option User) (fault : option Thrown)
    (id vid : string) (now : Z) (title : string)
| UpdateDocument (env : UpdateEnv) (id : string) (updates : Partial_Document)
| DeleteDocument (fault : option Thrown) (id : string)
| FetchVersionHistory (fault : option Thrown)
    (embed : string -> option string) (documentId : string)
| RestoreVersion (env : RestoreEnv) (documentId versionId : string).

Definition perform (a : Action) (c : DB * DocumentState)
    : DB * DocumentState :=
  match a with
  | FetchDocuments fault => (c.1, fetchDocuments fault c.1 c.2)
  | FetchDocument fault id => (c.1, fetchDocument fault c.1 id c.2)
  | ClearError => (c.1, clearError c.2)
  | ClearVersions => (c.1, clearVersions c.2)
  | CreateDocument user fault id vid now title =>
      (createDocument user fault id vid now c.1 title c.2).1
  | UpdateDocument env id updates => updateDocument env c.1 id updates c.2
  | DeleteDocument fault id => deleteDocument fault c.1 id c.2
  | FetchVersionHistory fault embed documentId =>
      (c.1, fetchVersionHistory fault embed c.1 documentId c.2)
  | RestoreVersion env documentId versionId =>
      restoreVersion env c.1 documentId versionId c.2
  end.

Definition run (actions : list Action) (c : DB * DocumentState)
    : DB * DocumentState :=
  fold_left (fun c a => perform a c) actions c.

(** The states a deployment on empty tables can get into. *)
Definition reachable (c : DB * DocumentState) : Prop :=
  exists actions, c = run actions (db_empty, initial_state).

(** The versions of one document, oldest insertion first. *)
Definition versions_of (db : DB) (documentId : string)
    : list DocumentVersion :=
  filter (fun v => ver_document_id v = documentId) (db_versions db).

(** The document an action deletes, if it does. *)
Definition deleted_by (a : Action) : option string :=
  match a with
  | DeleteDocument None id => Some id
  | _ => None
  end.

(** ** The dashboard ([pages/DashboardPage.tsx]) *)

(** White space and line terminators removed by [String.prototype.trim],
    among the code units below 256. *)
Definition is_white_space (c : Ascii.ascii) : bool :=
  match Ascii.N_of_ascii c with
  | 9%N | 10%N | 11%N | 12%N | 13%N | 32%N | 160%N => true
  | _ => false
  end.

Fixpoint trimStart (s : string) : string :=
  match s with
  | EmptyString => EmptyString
  | String c s' => if is_white_space c then trimStart s' else s
  end.

Fixpoint trimEnd (s : string) : string :=
  match s with
  | EmptyString => EmptyString
  | String c s' =>
      match trimEnd s' with
      | EmptyString => if is_white_space c then EmptyString
                       else String c EmptyString
      | r => String c r
      end
  end.

Definition trim (s : string) : string := trimEnd (trimStart s).

(** Empty, or white space only. *)
Fixpoint blank (s : string) : bool :=
  match s with
  | EmptyString => true
  | String c s' => is_white_space c && blank s'
  end.

Record DashboardPage := {
  isCreating : bool;
  newDocTitle : string;
  location : option string   (* target of the last navigate() *)
}.

(** [handleCreateDocument]: [!newDocTitle.trim()] holds of the empty
    string only. *)
Definition handleCreateDocument (user : option User) (fault : option Thrown)
    (id vid : string) (now : Z) (db : DB) (page : DashboardPage)
    (s : DocumentState) : DB * DocumentState * DashboardPage :=
  if String.eqb (trim (newDocTitle page)) ""
  then (db, s, page)
  else
    match createDocument user fault id vid now db
            (trim (newDocTitle page)) s with
    | (db', s', Ok docId) =>
        (db', s',
         {| isCreating := false; newDocTitle := "";
            location := Some (String.append "/docs/" docId) |})
    | (db', s', Failed _) => (db', s', page)
    end.

(** ** The document page and its auto-save

    The hooks of [DocumentPage] as a timed transition system.  A state
    setter called with the value already held does not render again, so
    no effect runs; any other change of [title], [content] or
    [currentDocument] re-runs the auto-save effect: its cleanup clears
    the pending timer and its body arms a new one, 1000 ms ahead, when a
    document is loaded.  A timer may fire at its delay or later. *)

Module DocumentPage.

Record page := {
  id : option string;                  (* useParams *)
  title : string;                      (* useState('') *)
  content : string;                    (* useState('') *)
  currentDocument : option Document;   (* from the store *)
  timeoutId : option Z;                (* pending timer: earliest firing *)
  clock : Z                            (* time of the last event *)
}.

Definition mount (id : option string) (t : Z) : page :=
  {| id := id; title := ""; content := ""; currentDocument := None;
     timeoutId := None; clock := t |}.

Inductive event :=
| setTitle (newTitle : string)            (* handleTitleChange, ... *)
| setContent (newContent : string)        (* handleContentChange *)
| storeChange (doc : option Document)     (* currentDocument replaced *)
| timeout.                                (* the pending timer fires *)

(** What a step shows: a change of the local fields, a reload from the
    store, a call [updateDocument(id, {title, content})], or nothing. *)
Inductive observation :=
| Edited (t : Z) (title content : string)
| Reloaded (t : Z)
| Saved (t : Z) (id : string) (updates : Partial_Document)
| Quiet.

(** [saveDocument()], as the timer calls it: the request it issues. *)
Definition saveDocument (p : page) : option (string * Partial_Document) :=
  match id p, currentDocument p with
  | Some i, Some doc =>
      if String.eqb i "" then None
      else if String.eqb (title p) (doc_title doc)
              && String.eqb (content p) (doc_content doc)
      then None
      else Some (i, {| upd_title := Some (title p);
                       upd_content := Some (content p) |})
  | _, _ => None
  end.

(** The auto-save effect, run at time [t] with the fields given. *)
Definition autosave (t : Z) (title content : string)
    (doc : option Document) (p : page) : page :=
  {| id := id p; title := title; content := content;
     currentDocument := doc;
     timeoutId := match doc with
                  | Some _ => Some (t + 1000)%Z
                  | None => None
                  end;
     clock := t |}.

Definition tick (t : Z) (timer : option Z) (p : page) : page :=
  {| id := id p; title := title p; content := content p;
     currentDocument := currentDocument p;
     timeoutId := timer; clock := t |}.

(** One event at time [t]; [None] when it cannot happen then. *)
Definition step (p : page) (te : Z * event) : option (page * observation) :=
  let t := te.1 in
  if (t <? clock p)%Z then None
  else
    match te.2 with
    | setTitle newTitle =>
        if String.eqb newTitle (title p)
        then Some (tick t (timeoutId p) p, Quiet)
        else Some (autosave t newTitle (content p) (currentDocument p) p,
                   Edited t newTitle (content p))
    | setContent newContent =>
        if String.eqb newContent (content p)
        then Some (tick t (timeoutId p) p, Quiet)
        else Some (autosave t (title p) newContent (currentDocument p) p,
                   Edited t (title p) newContent)
    | storeChange doc =>
        match doc with
        | Some d =>
            Some (autosave t (doc_title d) (doc_content d) doc p, Reloaded t)
        | None => Some (autosave t (title p) (content p) None p, Reloaded t)
        end
    | timeout =>
        match timeoutId p with
        | Some due =>
            if (due <=? t)%Z
            then Some (tick t None p,
                       match saveDocument p with
                       | Some (i, updates) => Saved t i updates
                       | None => Quiet
                       end)
            else None
        | None => None
        end
    end.

Fixpoint run (p : page) (events : list (Z * event))
    : option (page * list observation) :=
  match events with
  | [] => Some (p, [])
  | te :: rest =>
      match step p te with
      | Some (p', o) =>
          match run p' rest with
          | Some (q, os) => Some (q, o :: os)
          | None => None
          end
      | None => None
      end
  end.

Definition is_edit (o : observation) : bool :=
  match o with
  | Edited _ _ _ => true
  | _ => false
  end.

Definition is_quiet (o : observation) : bool :=
  match o with
  | Quiet => true
  | _ => false
  end.

End DocumentPage.

(** ** A worked session

    Create "Draft", write "Hello", rename to "Final"; the inputs of the
    examples below. *)

Module Scenario.

Definition alice : User :=
  {| user_id := "u1"; user_email := "alice@example.com" |}.

Definition update_env (vid : string) (now : Z) : UpdateEnv :=
  {| ue_fault := None; ue_vid := vid; ue_now := now;
     ue_sent_at := now; ue_current_at := now; ue_list_at := now |}.

Definition save (title content : string) : Partial_Document :=
  {| upd_title := Some title; upd_content := Some content |}.

Definition session : list Action :=
  [ CreateDocument (Some alice) None "d1" "v1" 100 "Draft";
    UpdateDocument (update_env "v2" 200) "d1" (save "Draft" "Hello");
    UpdateDocument (update_env "v3" 300) "d1" (save "Final" "Hello") ].

Definition after_session : DB * DocumentState :=
  run session (db_empty, initial_state).

Definition restore_env (user : option User) (insert_fault : option Thrown)
    (vid_trigger vid_insert : string) (now : Z) : RestoreEnv :=
  {| re_select_fault := None;
     re_update := update_env vid_trigger now;
     re_user := user;
     re_insert_fault := insert_fault;
     re_insert_vid := vid_insert;
     re_insert_now := now |}.

Definition emails (uid : string) : option string :=
  if String.eqb uid "u1" then Some "alice@example.com" else None.

(** The stored document when the page opens, and after its first save. *)
Definition opened : Document :=
  {| doc_id := "d1"; doc_title := "Draft"; doc_content := "";
     doc_created_at := 100; doc_updated_at := 100; doc_user_id := "u1" |}.

Definition saved : Document :=
  {| doc_id := "d1"; doc_title := "Draft"; doc_content := "He";
     doc_created_at := 100; doc_updated_at := 1350; doc_user_id := "u1" |}.

(** Two keystrokes 200 ms apart, the timer, the store's answer, the
    timer again. *)
Definition typing : list (Z * DocumentPage.event) :=
  [ (0%Z, DocumentPage.storeChange (Some opened));
    (100%Z, DocumentPage.setContent "H");
    (300%Z, DocumentPage.setContent "He");
    (1300%Z, DocumentPage.timeout);
    (1350%Z, DocumentPage.storeChange (Some saved));
    (2350%Z, DocumentPage.timeout) ].

End Scenario.

(** ** Notions used by the statements *)

(** The parts of the client state that hold data. *)
Definition same_data (s s' : DocumentState) : Prop :=
  documents s' = documents s
  /\ currentDocument s' = currentDocument s
  /\ versions s' = versions s.

(** No version of the table carries the identifier [vid]. *)
Definition unused_version_id (vid : string) (vs : list DocumentVersion)
    : bool :=
  negb (existsb (fun v => String.eqb (ver_id v) vid) vs).

(** The request of [restoreVersion] that rewrites the document. *)
Definition restore_update (env : RestoreEnv) (db : DB)
    (documentId : string) (version : DocumentVersion) : result DB :=
  request (ue_fault (re_update env))
    (update_document db documentId (restore_updates version)
       (ue_sent_at (re_update env)) (ue_vid (re_update env))
       (ue_now (re_update env))).

(** A restore all of whose requests the service answers, by a signed-in
    user. *)
Definition restore_answered (env : RestoreEnv) (user : User) : Prop :=
  re_select_fault env = None
  /\ ue_fault (re_update env) = None
  /\ re_user env = Some user
  /\ re_insert_fault env = None.

(** Every document has versions, the first of which records its
    creation; every version belongs to a document; every document is
    stored under its own id. *)
Definition first_is_created (db : DB) (documentId : string) : Prop :=
  exists v rest,
    versions_of db documentId = v :: rest /\ ver_change_type v = created.

Record consistent (db : DB) : Prop := {
  keyed : forall id doc, db_documents db !! id = Some doc -> doc_id doc = id;
  owned : forall v, v ∈ db_versions db ->
                    is_Some (db_documents db !! ver_document_id v);
  recorded : forall id doc, db_documents db !! id = Some doc ->
                            first_is_created db id
}.

(** A stored version as the history shows it. *)
Definition listed (embed : string -> option string) (v : DocumentVersion)
    : DocumentVersion :=
  with_user_email (v, embed (ver_user_id v)).

(** The row a restore of [version] leaves in place of [doc]. *)
Definition rewritten (env : RestoreEnv) (doc : Document)
    (version : DocumentVersion) : Document :=
  update_updated_at_column (ue_now (re_update env))
    (apply_updates doc (restore_updates version)
       (ue_sent_at (re_update env))).

(** The version the trigger records for that rewrite, if any. *)
Definition automatic_version (env : RestoreEnv) (doc : Document)
    (version : DocumentVersion) : list DocumentVersion :=
  match change_type_val UPDATE
          (Some (doc_title doc)) (Some (doc_content doc))
          (Some (ver_title version)) (Some (ver_content version)) with
  | Some change =>
      [version_of (rewritten env doc version) change
         (ue_vid (re_update env)) (ue_now (re_update env))]
  | None => []
  end.

(** Identifiers drawn for new versions: pairwise distinct and unused. *)
Definition fresh_ids (ids : list string) (vs : list DocumentVersion) : bool :=
  bool_decide (NoDup ids) && forallb (fun i => unused_version_id i vs) ids.

From stdpp Require Import pretty.

(** ** Further notions: the tables *)

(** No two versions share an identifier. *)
Definition versions_unique (db : DB) : Prop :=
  NoDup (ver_id <$> db_versions db).


(** The row [createDocument] has inserted for [user] at [now]. *)
Definition new_document (id title : string) (user : User) (now : Z)
    : Document :=
  {| doc_id := id; doc_title := title; doc_content := "";
     doc_created_at := now; doc_updated_at := now;
     doc_user_id := user_id user |}.

(** ** The initial versions of existing documents

    The statement run once after the table of versions is created:
    [INSERT INTO document_versions (...) SELECT id, title, content,
    'created', user_id, created_at FROM documents WHERE id NOT IN (SELECT
    document_id FROM document_versions)].  [vid_of] gives the identifier
    drawn for the version of each document; the statement is atomic. *)

Definition initial_version (vid_of : string -> string) (doc : Document)
    : DocumentVersion :=
  {| ver_id := vid_of (doc_id doc);
     ver_document_id := doc_id doc;
     ver_title := doc_title doc;
     ver_content := doc_content doc;
     ver_change_type := created;
     ver_user_id := doc_user_id doc;
     ver_user_email := None;
     ver_created_at := doc_created_at doc |}.

Definition without_version (db : DB) : list Document :=
  filter (fun doc => doc_id doc ∉ (ver_document_id <$> db_versions db))
    (map_to_list (db_documents db)).*2.

Fixpoint insert_versions (docs : gmap string Document)
    (vs : list DocumentVersion) (rows : list DocumentVersion)
    : result (list DocumentVersion) :=
  match rows with
  | [] => Ok vs
  | row :: rows' =>
      match insert_version docs vs row with
      | Ok vs' => insert_versions docs vs' rows'
      | Failed e => Failed e
      end
  end.

Definition create_initial_versions (vid_of : string -> string) (db : DB)
    : result DB :=
  match insert_versions (db_documents db) (db_versions db)
          (initial_version vid_of <$> without_version db) with
  | Ok vs => Ok {| db_documents := db_documents db; db_versions := vs |}
  | Failed e => Failed e
  end.

(** ** Previews of a document's content *)

(** The card of the dashboard:
    [doc.content ? doc.content.substring(0, 150) + '...' : 'Empty document'] *)
Definition card_preview (content : string) : string :=
  if String.eqb content "" then "Empty document"
  else String.append (String.substring 0 150 content) "...".

(** [getTextPreview] of the history, after the markup is turned into its
    text ([textContent], done by the browser), and its use
    [getTextPreview(version.content) || 'Empty document']. *)
Definition getTextPreview (textContent : string -> string)
    (htmlContent : string) : string :=
  let text := textContent htmlContent in
  String.append (String.substring 0 100 text)
    (if Nat.ltb 100 (String.length text) then "..." else "").

Definition version_preview (textContent : string -> string)
    (content : string) : string :=
  let preview := getTextPreview textContent content in
  if String.eqb preview "" then "Empty document" else preview.

(** ** The history panel ([components/VersionHistory.tsx]) *)

Module History.

Record panel := {
  selectedVersion : option DocumentVersion;
  isRestoring : bool;
  closed : bool               (* onClose() has been called *)
}.

Definition handleView (version : DocumentVersion) (p : panel) : panel :=
  {| selectedVersion := Some version; isRestoring := isRestoring p;
     closed := closed p |}.

Definition handleClose (p : panel) : panel :=
  {| selectedVersion := None; isRestoring := isRestoring p; closed := true |}.

(** [handleRestore]: [restoreVersion] catches what it throws, so the
    [await] always falls through to [onClose()]. *)
Definition handleRestore (confirmed : bool) (env : RestoreEnv) (db : DB)
    (documentId : string) (version : DocumentVersion) (s : DocumentState)
    (p : panel) : DB * DocumentState * panel :=
  if confirmed
  then
    let r := restoreVersion env db documentId (ver_id version) s in
    (r.1, r.2,
     {| selectedVersion := selectedVersion p; isRestoring := false;
        closed := true |})
  else (db, s, p).

End History.

(** ** Saving from the document page *)

Module Saving.

Record status := {
  isEditingTitle : bool;
  isSaving : bool;
  lastSaved : option Z
}.

(** The auto-save callback in full: the request of
    [DocumentPage.saveDocument], and, since [updateDocument] catches what
    it throws, [setLastSaved(new Date())] after it in every case. *)
Definition saveDocument (env : UpdateEnv) (returned_at : Z) (db : DB)
    (s : DocumentState) (p : DocumentPage.page) (st : status)
    : DB * DocumentState * status :=
  match DocumentPage.saveDocument p with
  | None => (db, s, st)
  | Some (id, updates) =>
      let r := updateDocument env db id updates s in
      (r.1, r.2,
       {| isEditingTitle := isEditingTitle st; isSaving := false;
          lastSaved := Some returned_at |})
  end.

(** [formatLastSaved]; [clock_time] stands for [toLocaleTimeString]. *)
Definition formatLastSaved (clock_time : Z -> string)
    (lastSaved : option Z) (now : Z) : string :=
  match lastSaved with
  | None => "Not saved"
  | Some saved =>
      let diffMs := (now - saved)%Z in
      let diffSeconds := (diffMs / 1000)%Z in
      let diffMinutes := (diffSeconds / 60)%Z in
      if (diffSeconds <? 30)%Z then "Saved just now"
      else if (diffMinutes =? 0)%Z
      then String.append "Saved "
             (String.append (pretty diffSeconds) " seconds ago")
      else if (diffMinutes =? 1)%Z then "Saved 1 minute ago"
      else if (diffMinutes <? 60)%Z
      then String.append "Saved "
             (String.append (pretty diffMinutes) " minutes ago")
      else String.append "Saved at " (clock_time saved)
  end.

(** [currentDocument?.title || 'Untitled'] *)
Definition stored_title (p : DocumentPage.page) : string :=
  match DocumentPage.currentDocument p with
  | Some doc => if String.eqb (doc_title doc) "" then "Untitled"
                else doc_title doc
  | None => "Untitled"
  end.

Definition stop_editing (st : status) : status :=
  {| isEditingTitle := false; isSaving := isSaving st;
     lastSaved := lastSaved st |}.

(** [handleTitleSubmit]: the new status and the [setTitle] it calls, if
    any. *)
Definition handleTitleSubmit (p : DocumentPage.page) (st : status)
    : status * option DocumentPage.event :=
  (stop_editing st,
   if String.eqb (trim (DocumentPage.title p)) ""
   then Some (DocumentPage.setTitle (stored_title p))
   else None).

(** [handleTitleKeyPress] *)
Definition handleTitleKeyPress (key : string) (p : DocumentPage.page)
    (st : status) : status * option DocumentPage.event :=
  if String.eqb key "Enter" then handleTitleSubmit p st
  else if String.eqb key "Escape"
  then (stop_editing st, Some (DocumentPage.setTitle (stored_title p)))
  else (st, None).

(** The page after a handler, at time [t]. *)
Definition apply_event (t : Z) (event : option DocumentPage.event)
    (p : DocumentPage.page) : option DocumentPage.page :=
  match event with
  | Some e => fst <$> DocumentPage.step p (t, e)
  | None => Some p
  end.

End Saving.

(** ** The auth store and the routes ([App.tsx]) *)

Module AuthStore.

(** [User] of [lib/supabase.ts]. *)
Record User := { id : string; email : string; created_at : string }.

Record AuthState := {
  user : option User;
  loading : bool;
  error : option string
}.

Definition initial : AuthState :=
  {| user := None; loading := true; error := None |}.

(** [authError.message || fallback] *)
Definition auth_error_text (fallback : string) (e : Thrown) : string :=
  let message := match e with
                 | ErrorInstance m => m
                 | PlainObject m => m
                 end in
  if String.eqb message "" then fallback else message.

(** [initialize]: the session read ([Failed] when [getSession] throws). *)
Definition initialize (session : result (option User)) (s : AuthState)
    : AuthState :=
  match session with
  | Ok (Some u) => {| user := Some u; loading := false; error := error s |}
  | Ok None => {| user := None; loading := false; error := error s |}
  | Failed e =>
      {| user := user s; loading := false;
         error := Some (error_text "Failed to initialize auth" e) |}
  end.

(** The listener registered by [initialize]. *)
Definition onAuthStateChange (session : option User) (s : AuthState)
    : AuthState :=
  {| user := session; loading := loading s; error := error s |}.

(** [signIn]: the answer is an error (returned or thrown) or
    [data.user]. *)
Definition signIn (answer : result (option User)) (s : AuthState)
    : AuthState :=
  match answer with
  | Failed e =>
      {| user := user s; loading := false;
         error := Some (auth_error_text "Failed to sign in" e) |}
  | Ok (Some u) => {| user := Some u; loading := false; error := None |}
  | Ok None => {| user := user s; loading := true; error := None |}
  end.

Definition signUp (answer : result (option User)) (s : AuthState)
    : AuthState :=
  match answer with
  | Failed e =>
      {| user := user s; loading := false;
         error := Some (auth_error_text "Failed to sign up" e) |}
  | Ok (Some _) => {| user := user s; loading := false; error := None |}
  | Ok None => {| user := user s; loading := true; error := None |}
  end.

(** [signOut]: only an exception reaches the [catch]; an error the
    service returns is not read. *)
Definition signOut (thrown : option Thrown) (s : AuthState) : AuthState :=
  match thrown with
  | None => {| user := None; loading := loading s; error := None |}
  | Some e =>
      {| user := user s; loading := loading s;
         error := Some (error_text "Failed to sign out" e) |}
  end.

Definition clearError (s : AuthState) : AuthState :=
  {| user := user s; loading := loading s; error := None |}.

Inductive Action :=
| Initialize (session : result (option User))
| AuthStateChange (session : option User)
| SignIn (answer : result (option User))
| SignUp (answer : result (option User))
| SignOut (thrown : option Thrown)
| ClearError.

Definition perform (a : Action) (s : AuthState) : AuthState :=
  match a with
  | Initialize session => initialize session s
  | AuthStateChange session => onAuthStateChange session s
  | SignIn answer => signIn answer s
  | SignUp answer => signUp answer s
  | SignOut thrown => signOut thrown s
  | ClearError => clearError s
  end.

End AuthStore.

Module App.

(** The locations the route table tells apart. *)
Inductive path :=
| login | signup | dashboard | docs (id : string) | root | other.

Inductive screen :=
| Spinner
| LoginPage
| SignupPage
| DashboardPage
| DocumentPage (id : string)
| Navigate (to : path)
| Nothing.

(** What [App] renders at a location. *)
Definition App (s : AuthStore.AuthState) (at_ : path) : screen :=
  if AuthStore.loading s then Spinner
  else
    match at_, AuthStore.user s with
    | login, Some _ => Navigate dashboard
    | login, None => LoginPage
    | signup, Some _ => Navigate dashboard
    | signup, None => SignupPage
    | dashboard, Some _ => DashboardPage
    | dashboard, None => Navigate login
    | docs id, Some _ => DocumentPage id
    | docs _, None => Navigate login
    | root, Some _ => Navigate dashboard
    | root, None => Navigate login
    | other, _ => Nothing
    end.

(** Rendering, following at most [n] redirects. *)
Fixpoint settle (n : nat) (s : AuthStore.AuthState) (at_ : path) : screen :=
  match App s at_, n with
  | Navigate to, S n' => settle n' s to
  | shown, _ => shown
  end.

Definition protected (shown : screen) : bool :=
  match shown with
  | DashboardPage | DocumentPage _ => true
  | _ => false
  end.

End App.

(** ** What the document page shows

    The early returns of [DocumentPage], in their order. *)

Module DocumentView.

Inductive screen :=
| Loading
| ErrorLoading (message : string)   (* "Error loading document" *)
| NotFound                          (* "Document not found" *)
| Editor (doc : Document).

Definition render (s : DocumentState) : screen :=
  if loading s then Loading
  else match error s with
       | Some message =>
           if String.eqb message "" then
             match currentDocument s with
             | Some doc => Editor doc
             | None => NotFound
             end
           else ErrorLoading message
       | None =>
           match currentDocument s with
           | Some doc => Editor doc
           | None => NotFound
           end
       end.

End DocumentView.

(** * Properties *)

(** ** The Version Recorder *)

Lemma sql_ne_text (a b : string) :
  sql_is_true (sql_ne (Some a) (Some b)) = negb (String.eqb a b).
Proof. simpl. by destruct (String.eqb a b). Qed.

Lemma sql_and_text (a b c d : string) :
  sql_is_true (sql_and (sql_ne (Some a) (Some b)) (sql_ne (Some c) (Some d)))
  = negb (String.eqb a b) && negb (String.eqb c d).
Proof. simpl. by destruct (String.eqb a b), (String.eqb c d). Qed.

(** A NULL content on either side makes the content comparison unknown:
    such an update is recorded only if the title changed. *)
Remark change_type_val_null_content (old_title new_title : string)
    (new_content : sql_text) :
  change_type_val UPDATE (Some old_title) None (Some new_title) new_content
  = if String.eqb old_title new_title then None else Some title_updated.
Proof.
  unfold change_type_val. simpl.
  destruct new_content, (String.eqb old_title new_title); reflexivity.
Qed.

Lemma change_type_val_rules (first_write : bool)
    (prev_title prev_content title content : string) :
  change_type_val (tg_op_of first_write)
    (Some prev_title) (Some prev_content) (Some title) (Some content)
  = recorder_spec first_write prev_title prev_content title content.
Proof.
  destruct first_write; [reflexivity|].
  unfold change_type_val, recorder_spec, tg_op_of.
  rewrite sql_and_text, !sql_ne_text.
  destruct (String.eqb prev_title title), (String.eqb prev_content content);
    reflexivity.
Qed.

Lemma create_document_version_rules (first_write : bool) (OLD NEW : Document)
    vid now docs vs :
  create_document_version (tg_op_of first_write) (Some OLD) NEW vid now docs vs
  = match recorder_spec first_write (doc_title OLD) (doc_content OLD)
            (doc_title NEW) (doc_content NEW) with
    | Some change => insert_version docs vs (version_of NEW change vid now)
    | None => Ok vs
    end.
Proof.
  unfold create_document_version. simpl. by rewrite change_type_val_rules.
Qed.

(** C1.  The classification computed by the trigger function is the one
    of the Recorder's ordered rules, for every previous pair, incoming pair
    and first-write flag: first write gives [created]; title and content
    both different give [content_modified]; only the title, [title_updated];
    only the content, [content_modified]; nothing different, no version.
    On rows, the trigger inserts a version exactly when the rules give a
    classification, and leaves the table as it is otherwise. *)
Theorem recorder_first_match_wins :
  (forall (first_write : bool) (prev_title prev_content title content : string),
      change_type_val (tg_op_of first_write)
        (Some prev_title) (Some prev_content) (Some title) (Some content)
      = recorder_spec first_write prev_title prev_content title content)
  /\ (forall (first_write : bool) (OLD NEW : Document) vid now docs vs,
         create_document_version (tg_op_of first_write) (Some OLD) NEW
           vid now docs vs
         = match recorder_spec first_write (doc_title OLD) (doc_content OLD)
                   (doc_title NEW) (doc_content NEW) with
           | Some change =>
               insert_version docs vs (version_of NEW change vid now)
           | None => Ok vs
           end).
Proof.
  split.
  - apply change_type_val_rules.
  - apply create_document_version_rules.
Qed.

(** ** Failures of the storage *)

(** C10.  When the storage call of [updateDocument], [deleteDocument] or
    [fetchVersionHistory] fails, the documents list, the current document
    and the versions list keep their values (only the error message and
    the loading flags change), and the error is recorded. *)
Theorem failed_call_keeps_data :
  (forall env db id updates s e,
      request (ue_fault env)
        (update_document db id updates (ue_sent_at env) (ue_vid env)
           (ue_now env)) = Failed e ->
      let s' := (updateDocument env db id updates s).2 in
      same_data s s' /\ is_Some (error s')
      /\ loading s' = loading s /\ versionsLoading s' = versionsLoading s)
  /\ (forall e db id s,
         let s' := (deleteDocument (Some e) db id s).2 in
         same_data s s' /\ is_Some (error s'))
  /\ (forall e embed db documentId s,
         let s' := fetchVersionHistory (Some e) embed db documentId s in
         same_data s s' /\ is_Some (error s')).
Proof.
  split; [|split].
  - intros env db id updates s e Hfailed s'. subst s'.
    unfold updateDocument. rewrite Hfailed. simpl.
    repeat split; eauto.
  - intros e db id s. simpl. repeat split; eauto.
  - intros e embed db documentId s. simpl. repeat split; eauto.
Qed.

(** A failure of the trigger's insert aborts the update that fired it,
    and [updateDocument] records it. *)
Lemma trigger_failure_surfaces env db id updates s old e :
  ue_fault env = None ->
  db_documents db !! id = Some old ->
  create_document_version UPDATE (Some old)
    (update_updated_at_column (ue_now env)
       (apply_updates old updates (ue_sent_at env)))
    (ue_vid env) (ue_now env)
    (<[id := update_updated_at_column (ue_now env)
               (apply_updates old updates (ue_sent_at env))]>
       (db_documents db))
    (db_versions db) = Failed e ->
  updateDocument env db id updates s
  = (db, set_error (Some (error_text "Failed to update document" e)) s).
Proof.
  intros Hfault Hold Htrigger.
  unfold updateDocument, update_document.
  rewrite Hfault, Hold. simpl. by rewrite Htrigger.
Qed.

(** Once the version is read and the document rewritten, [restoreVersion]
    reports no error, whatever the answer to its version insert. *)
Lemma restoreVersion_reports_no_insert_error env db documentId versionId s
    version db1 :
  request (re_select_fault env) (select_version db versionId) = Ok version ->
  restore_update env db documentId version = Ok db1 ->
  error (restoreVersion env db documentId versionId s).2 = None.
Proof.
  unfold restore_update. intros Hsel Hupd.
  unfold restoreVersion. rewrite Hsel, Hupd. reflexivity.
Qed.

(** C3.  The version insert of [restoreVersion] fails silently.  In the
    worked session, restoring "v1" when the service rejects the insert
    with an error: the document is rewritten, no [restored] version is
    in the table, and the store ends with no error and [loading] off. *)
Theorem restore_insert_failure_is_silent :
  let env := Scenario.restore_env (Some Scenario.alice)
               (Some (ErrorInstance "connection lost")) "v4" "v5" 400 in
  let r := restoreVersion env Scenario.after_session.1 "d1" "v1"
             Scenario.after_session.2 in
  re_insert_fault env = Some (ErrorInstance "connection lost")
  /\ error r.2 = None
  /\ loading r.2 = false
  /\ (doc_title <$> db_documents r.1 !! "d1") = Some "Draft"
  /\ forallb (fun v => bool_decide (ver_change_type v ≠ restored))
       (db_versions r.1) = true.
Proof. vm_compute. repeat split; reflexivity. Qed.

(** ** Restore *)

Lemma insert_version_ok docs vs row :
  unused_version_id (ver_id row) vs = true ->
  is_Some (docs !! ver_document_id row) ->
  insert_version docs vs row = Ok (vs ++ [row]).
Proof.
  unfold unused_version_id, insert_version. intros Hfresh [doc Hdoc].
  apply negb_true_iff in Hfresh. by rewrite Hfresh, Hdoc.
Qed.

(** C2 (amended).  In a restore that has read the version and rewritten
    the document: if the user lookup returns no user, the table of
    versions is left as the update left it; if it returns a user and the
    storage accepts the insert (no failure of the service, the document
    row exists, the new id is unused), one version is appended, with
    classification [restored] and the title and content of the version
    restored, whether or not these equal the document's live state. *)
Theorem restore_appends_restored_for_user env db documentId versionId s
    version db1 :
  request (re_select_fault env) (select_version db versionId) = Ok version ->
  restore_update env db documentId version = Ok db1 ->
  let db' := (restoreVersion env db documentId versionId s).1 in
  (re_user env = None -> db_versions db' = db_versions db1)
  /\ (forall user,
         re_user env = Some user ->
         re_insert_fault env = None ->
         is_Some (db_documents db1 !! documentId) ->
         unused_version_id (re_insert_vid env) (db_versions db1) = true ->
         db_versions db'
         = db_versions db1 ++ [restored_version env documentId version user]
         /\ ver_change_type (restored_version env documentId version user)
            = restored
         /\ ver_title (restored_version env documentId version user)
            = ver_title version
         /\ ver_content (restored_version env documentId version user)
            = ver_content version).
Proof.
  intros Hsel Hupd db'. subst db'. unfold restore_update in Hupd.
  unfold restoreVersion. rewrite Hsel, Hupd. split.
  - intros ->. reflexivity.
  - intros user -> -> Hdoc Hfresh. simpl.
    rewrite insert_version_ok; done.
Qed.

(** The restore of the worked session by a signed-in user. *)
Lemma restore_appends_restored_for_user_witness :
  let env := Scenario.restore_env (Some Scenario.alice) None "v4" "v5" 400 in
  let db' := (restoreVersion env Scenario.after_session.1 "d1" "v1"
                Scenario.after_session.2).1 in
  exists version db1,
    select_version Scenario.after_session.1 "v1" = Ok version
    /\ restore_update env Scenario.after_session.1 "d1" version = Ok db1
    /\ db_versions db'
       = db_versions db1 ++ [restored_version env "d1" version Scenario.alice].
Proof.
  intros env db'.
  eexists _, _. split; [vm_compute; reflexivity|].
  split; [vm_compute; reflexivity|].
  refine (proj1 (proj2 (restore_appends_restored_for_user env
            Scenario.after_session.1 "d1" "v1" Scenario.after_session.2
            _ _ _ _) Scenario.alice _ _ _ _)).
  - vm_compute; reflexivity.
  - vm_compute; reflexivity.
  - reflexivity.
  - reflexivity.
  - vm_compute. eexists; reflexivity.
  - vm_compute; reflexivity.
Defined.

(** C2, as stated, fails: the same restore with no signed-in user reaches
    the third step and appends no [restored] version. *)
Lemma restore_without_user_appends_nothing :
  let env := Scenario.restore_env None None "v4" "v5" 400 in
  let db' := (restoreVersion env Scenario.after_session.1 "d1" "v1"
                Scenario.after_session.2).1 in
  (exists version db1,
      request (re_select_fault env)
        (select_version Scenario.after_session.1 "v1") = Ok version
      /\ restore_update env Scenario.after_session.1 "d1" version = Ok db1)
  /\ ~ (exists v, v ∈ db_versions db' /\ ver_change_type v = restored).
Proof.
  intros env db'. split.
  - eexists _, _. split; vm_compute; reflexivity.
  - intros (v & Hin & Hrestored).
    assert (Hall : Forall (fun v => ver_change_type v ≠ restored)
                     (db_versions db')).
    { vm_compute. repeat constructor; discriminate. }
    rewrite Forall_forall in Hall. by apply (Hall v).
Qed.

(** An update the service rejects, in the worked session. *)
Lemma failed_call_keeps_data_witness :
  let env := {| ue_fault := Some (PlainObject "502"); ue_vid := "v4";
                ue_now := 400; ue_sent_at := 400; ue_current_at := 400;
                ue_list_at := 400 |} in
  let db := Scenario.after_session.1 in
  let s := Scenario.after_session.2 in
  request (ue_fault env)
    (update_document db "d1" (Scenario.save "Final" "Bye") (ue_sent_at env)
       (ue_vid env) (ue_now env)) = Failed (PlainObject "502")
  /\ same_data s (updateDocument env db "d1" (Scenario.save "Final" "Bye") s).2.
Proof.
  intros env db s. split; [reflexivity|].
  apply (proj1 failed_call_keeps_data env db "d1"
           (Scenario.save "Final" "Bye") s (PlainObject "502")).
  reflexivity.
Defined.

(** ** Listing the history *)

Global Instance newer_or_same_total : Total newer_or_same.
Proof. intros v w. unfold newer_or_same. lia. Qed.

Lemma display_email_resolved email :
  email ≠ "" -> display_email (Some email) = email.
Proof.
  intros Hne. unfold display_email.
  destruct (String.eqb_spec email ""); congruence.
Qed.

Lemma fetchVersionHistory_versions embed db documentId s :
  versions (fetchVersionHistory None embed db documentId s)
  = listed embed <$>
      merge_sort newer_or_same (versions_of db documentId).
Proof.
  unfold fetchVersionHistory, fetchVersionHistory_finish,
    select_version_history, versions_of. simpl.
  by rewrite <- list_fmap_compose.
Qed.

(** C5.  When the service answers, [fetchVersionHistory] ends without an
    error and its list holds exactly the versions of the document, each
    once, newest creation time first; each entry shows the email resolved
    for its user, and "Unknown user" when none is resolved. *)
Theorem version_history_newest_first embed db documentId s :
  let s' := fetchVersionHistory None embed db documentId s in
  error s' = None
  /\ versionsLoading s' = false
  /\ Sorted newer_or_same (versions s')
  /\ versions s' ≡ₚ listed embed <$> versions_of db documentId
  /\ (forall v, v ∈ versions_of db documentId ->
        listed embed v ∈ versions s'
        /\ ver_id (listed embed v) = ver_id v
        /\ ver_title (listed embed v) = ver_title v
        /\ ver_content (listed embed v) = ver_content v
        /\ ver_change_type (listed embed v) = ver_change_type v
        /\ ver_created_at (listed embed v) = ver_created_at v
        /\ (embed (ver_user_id v) = None ->
            ver_user_email (listed embed v) = Some "Unknown user")
        /\ (forall email, embed (ver_user_id v) = Some email -> email ≠ "" ->
            ver_user_email (listed embed v) = Some email)).
Proof.
  intros s'. subst s'.
  rewrite fetchVersionHistory_versions.
  split; [reflexivity|]. split; [reflexivity|].
  split; [|split].
  - apply (Sorted_fmap _ newer_or_same newer_or_same).
    + intros v w Hvw. exact Hvw.
    + apply (Sorted_merge_sort newer_or_same).
  - by rewrite merge_sort_Permutation.
  - intros v Hv. repeat split.
    + apply list_elem_of_fmap_2. by rewrite merge_sort_Permutation.
    + unfold listed. simpl. by intros ->.
    + unfold listed. simpl. intros email -> Hne.
      by rewrite display_email_resolved.
Qed.

(** The history of the worked session, with a user whose email is known. *)
Lemma version_history_newest_first_witness :
  let s' := fetchVersionHistory None Scenario.emails
              Scenario.after_session.1 "d1" Scenario.after_session.2 in
  (ver_id <$> versions s') = ["v3"; "v2"; "v1"]
  /\ Sorted newer_or_same (versions s').
Proof.
  split; [vm_compute; reflexivity|].
  apply (version_history_newest_first Scenario.emails
           Scenario.after_session.1 "d1" Scenario.after_session.2).
Defined.

(** ** What the statements do to the tables *)

Lemma request_ok {A : Type} fault (r : result A) a :
  request fault r = Ok a -> fault = None /\ r = Ok a.
Proof. destruct fault; simpl; [discriminate|]. by intros ->. Qed.

Lemma insert_version_inv docs vs row vs' :
  insert_version docs vs row = Ok vs' ->
  vs' = vs ++ [row] /\ is_Some (docs !! ver_document_id row).
Proof.
  unfold insert_version.
  destruct (existsb _ vs); [discriminate|].
  destruct (docs !! ver_document_id row) as [doc|] eqn:Hdoc; [|discriminate].
  intros [= <-]. eauto.
Qed.

Lemma create_document_version_inv tg_op OLD NEW vid now docs vs vs' :
  create_document_version tg_op OLD NEW vid now docs vs = Ok vs' ->
  vs' = vs
  \/ exists change,
       vs' = vs ++ [version_of NEW change vid now]
       /\ is_Some (docs !! doc_id NEW)
       /\ (tg_op = INSERT -> change = created).
Proof.
  unfold create_document_version.
  destruct (change_type_val _ _ _ _ _) as [change|] eqn:Hchange.
  - intros [-> Hdoc]%insert_version_inv. right. exists change.
    repeat split; [done|]. intros ->. simpl in Hchange. congruence.
  - intros [= <-]. by left.
Qed.

Lemma insert_document_inv db id vid now title content user db' row :
  insert_document db id vid now title content user = Ok (db', row) ->
  db_documents db !! id = None
  /\ doc_id row = id /\ doc_title row = title /\ doc_content row = content
  /\ db_documents db' = <[id := row]> (db_documents db)
  /\ db_versions db' = db_versions db ++ [version_of row created vid now].
Proof.
  unfold insert_document.
  destruct (db_documents db !! id) eqn:Hid; [discriminate|].
  unfold create_document_version. simpl.
  destruct (insert_version _ _ _) as [vs|] eqn:Hins; [|discriminate].
  apply insert_version_inv in Hins as [-> _].
  intros [= <- <-]. simpl. done.
Qed.

Lemma update_document_inv db id updates sent vid now db' :
  update_document db id updates sent vid now = Ok db' ->
  (db_documents db !! id = None /\ db' = db)
  \/ exists old,
       let new := update_updated_at_column now
                    (apply_updates old updates sent) in
       db_documents db !! id = Some old
       /\ db_documents db' = <[id := new]> (db_documents db)
       /\ create_document_version UPDATE (Some old) new vid now
            (<[id := new]> (db_documents db)) (db_versions db)
          = Ok (db_versions db').
Proof.
  unfold update_document.
  destruct (db_documents db !! id) as [old|] eqn:Hid.
  - destruct (create_document_version _ _ _ _ _ _ _) as [vs|] eqn:Htrigger;
      [|discriminate].
    intros [= <-]. right. exists old. simpl. done.
  - intros [= <-]. by left.
Qed.

Lemma update_document_appends db id updates sent vid now db' :
  update_document db id updates sent vid now = Ok db' ->
  exists extra, db_versions db' = db_versions db ++ extra.
Proof.
  intros [[_ ->]|(old & _ & _ & Htrigger)]%update_document_inv.
  - exists []. by rewrite app_nil_r.
  - apply create_document_version_inv in Htrigger as [->|(c & -> & _)].
    + exists []. by rewrite app_nil_r.
    + eauto.
Qed.

(** The database part of a restore, statement by statement. *)
Lemma restoreVersion_db env db documentId versionId s :
  let db' := (restoreVersion env db documentId versionId s).1 in
  db' = db
  \/ exists version db1,
       request (re_select_fault env) (select_version db versionId)
       = Ok version
       /\ restore_update env db documentId version = Ok db1
       /\ (db' = db1
           \/ exists user vs,
                re_user env = Some user
                /\ insert_version (db_documents db1) (db_versions db1)
                     (restored_version env documentId version user) = Ok vs
                /\ db' = {| db_documents := db_documents db1;
                            db_versions := vs |}).
Proof.
  unfold restoreVersion, restore_update.
  destruct (request (re_select_fault env) _) as [version|] eqn:Hsel;
    [|by left].
  destruct (request (ue_fault (re_update env)) _) as [db1|] eqn:Hupd;
    [|by left].
  right. exists version, db1. do 2 (split; [done|]). simpl.
  destruct (re_user env) as [user|]; [|by left].
  destruct (request (re_insert_fault env) _) as [vs|] eqn:Hins; [|by left].
  apply request_ok in Hins as [_ Hins]. right. eauto.
Qed.

(** ** Deleting a document *)

Lemma versions_of_delete db id :
  versions_of (delete_document db id) id = [].
Proof.
  unfold versions_of, delete_document. simpl.
  induction (db_versions db) as [|v vs IH]; [done|].
  rewrite filter_cons. case_decide as Hv.
  - rewrite filter_cons_False; [done|]. by intros ?.
  - done.
Qed.

Lemma perform_versions (a : Action) (c : DB * DocumentState) :
  match deleted_by a with
  | Some id =>
      db_versions (perform a c).1
      = filter (fun v => ver_document_id v ≠ id) (db_versions c.1)
  | None =>
      exists extra, db_versions (perform a c).1 = db_versions c.1 ++ extra
  end.
Proof.
  destruct c as [db s].
  assert (Hsame : exists extra : list DocumentVersion,
             db_versions db = db_versions db ++ extra)
    by (exists []; by rewrite app_nil_r).
  destruct a as [fault|fault id| | |user fault id vid now title
                |env id updates|fault id|fault embed documentId
                |env documentId versionId]; simpl; try done.
  - unfold createDocument. destruct user as [u|]; [|done].
    destruct (request fault _) as [[db' row]|] eqn:Hreq; [|done].
    apply request_ok in Hreq as [_ Hreq].
    apply insert_document_inv in Hreq as (_ & _ & _ & _ & _ & Hvs).
    simpl. rewrite Hvs. eauto.
  - unfold updateDocument.
    destruct (request (ue_fault env) _) as [db'|] eqn:Hreq; [|done].
    apply request_ok in Hreq as [_ Hreq].
    by apply update_document_appends in Hreq.
  - destruct fault; [done|reflexivity].
  - destruct (restoreVersion_db env db documentId versionId s)
      as [->|(version & db1 & _ & Hupd & Hrest)]; [done|].
    apply request_ok in Hupd as [_ Hupd].
    apply update_document_appends in Hupd as [extra Hextra].
    destruct Hrest as [->|(user & vs & _ & Hins & ->)]; [eauto|].
    apply insert_version_inv in Hins as [-> _]. simpl.
    rewrite Hextra, <- app_assoc. eauto.
Qed.

(** C8.  After a delete the service has carried out, the document is
    gone and with it every version of it: the table holds no row with its
    id and the history listed for it is empty.  No other action of the
    store removes or changes a version: a delete leaves exactly the
    versions of the other documents, and every other action leaves the
    table as it was, up to rows appended at its end. *)
Theorem delete_cascades_and_nothing_else_removes :
  (forall db id s embed,
      let db' := (deleteDocument None db id s).1 in
      db_documents db' !! id = None
      /\ versions_of db' id = []
      /\ select_version_history embed db' id = []
      /\ versions (fetchVersionHistory None embed db' id s) = [])
  /\ (forall (a : Action) (c : DB * DocumentState),
         match deleted_by a with
         | Some id =>
             db_versions (perform a c).1
             = filter (fun v => ver_document_id v ≠ id) (db_versions c.1)
         | None =>
             exists extra,
               db_versions (perform a c).1 = db_versions c.1 ++ extra
         end).
Proof.
  split; [|exact perform_versions].
  intros db id s embed. simpl.
  assert (Hnone : select_version_history embed (delete_document db id) id = []).
  { unfold select_version_history.
    change (filter _ (db_versions (delete_document db id)))
      with (versions_of (delete_document db id) id).
    by rewrite versions_of_delete. }
  repeat split.
  - apply lookup_delete_eq.
  - apply versions_of_delete.
  - exact Hnone.
  - unfold fetchVersionHistory, fetchVersionHistory_finish. simpl.
    by rewrite Hnone.
Qed.

(** ** Every document has its [created] version *)

Lemma consistent_empty : consistent db_empty.
Proof.
  split; simpl.
  - intros id doc. by rewrite lookup_empty.
  - intros v Hv. by apply not_elem_of_nil in Hv.
  - intros id doc. by rewrite lookup_empty.
Qed.

Lemma versions_of_none db documentId :
  (forall v, v ∈ db_versions db -> ver_document_id v ≠ documentId) ->
  versions_of db documentId = [].
Proof.
  unfold versions_of. induction (db_versions db) as [|v vs IH]; [done|].
  intros Hall. rewrite filter_cons_False.
  - apply IH. intros w Hw. apply Hall. by right.
  - apply Hall. by left.
Qed.

Lemma versions_of_app docs vs extra documentId :
  versions_of {| db_documents := docs; db_versions := vs ++ extra |} documentId
  = versions_of {| db_documents := docs; db_versions := vs |} documentId
    ++ filter (fun v => ver_document_id v = documentId) extra.
Proof. unfold versions_of. simpl. apply filter_app. Qed.

Lemma first_is_created_app docs docs' vs extra documentId :
  first_is_created {| db_documents := docs; db_versions := vs |} documentId ->
  first_is_created {| db_documents := docs'; db_versions := vs ++ extra |}
    documentId.
Proof.
  intros (v & rest & Hvs & Hcreated).
  exists v, (rest ++ filter (fun v => ver_document_id v = documentId) extra).
  split; [|done].
  unfold versions_of in *. simpl in *. by rewrite filter_app, Hvs.
Qed.

(** Appending a version of a stored document. *)
Lemma consistent_append docs vs row :
  consistent {| db_documents := docs; db_versions := vs |} ->
  is_Some (docs !! ver_document_id row) ->
  consistent {| db_documents := docs; db_versions := vs ++ [row] |}.
Proof.
  intros [Hkeyed Howned Hrecorded] Hdoc. split; simpl in *.
  - exact Hkeyed.
  - intros v [Hv| ->%list_elem_of_singleton]%elem_of_app; auto.
  - intros id doc Hid. eapply first_is_created_app, Hrecorded, Hid.
Qed.

(** Rewriting a stored document, its id kept. *)
Lemma consistent_rewrite docs vs id old new :
  consistent {| db_documents := docs; db_versions := vs |} ->
  docs !! id = Some old ->
  doc_id new = doc_id old ->
  consistent {| db_documents := <[id := new]> docs; db_versions := vs |}.
Proof.
  intros [Hkeyed Howned Hrecorded] Hold Hid. split; simpl in *.
  - intros id' doc. rewrite lookup_insert. case_decide as Hcase.
    + subst id'. intros [= <-]. rewrite Hid. eauto.
    + apply Hkeyed.
  - intros v Hv. rewrite lookup_insert. case_decide; [eauto|]. by apply Howned.
  - intros id' doc. rewrite lookup_insert. case_decide as Hcase.
    + subst id'. intros _. apply (Hrecorded id old Hold).
    + intros Hdoc. apply (Hrecorded id' doc Hdoc).
Qed.

Lemma consistent_insert_document db id vid now title content user db' row :
  consistent db ->
  insert_document db id vid now title content user = Ok (db', row) ->
  consistent db'.
Proof.
  intros [Hkeyed Howned Hrecorded]
    (Hfree & Hid & _ & _ & Hdocs & Hvs)%insert_document_inv.
  assert (Hnone : versions_of db id = []).
  { apply versions_of_none. intros v Hv Heq.
    destruct (Howned v Hv) as [d Hd]. congruence. }
  destruct db' as [docs' vs']. simpl in *. subst docs' vs'.
  split; simpl.
  - intros id' doc. rewrite lookup_insert. case_decide as Hcase.
    + subst id'. by intros [= <-].
    + apply Hkeyed.
  - intros v [Hv| ->%list_elem_of_singleton]%elem_of_app.
    + rewrite lookup_insert. case_decide; [eauto|]. by apply Howned.
    + simpl. rewrite Hid, lookup_insert_eq. eauto.
  - intros id' doc. rewrite lookup_insert. case_decide as Hcase.
    + subst id'. intros _.
      exists (version_of row created vid now), [].
      split; [|done].
      unfold versions_of in *. simpl. rewrite filter_app, Hnone. simpl.
      rewrite filter_cons_True; [done|]. simpl. exact Hid.
    + intros Hdoc. destruct db as [docs vs].
      eapply first_is_created_app, Hrecorded, Hdoc.
Qed.

Lemma consistent_update_document db id updates sent vid now db' :
  consistent db ->
  update_document db id updates sent vid now = Ok db' ->
  consistent db'.
Proof.
  intros Hdb [[_ ->]|(old & Hold & Hdocs & Htrigger)]%update_document_inv;
    [done|].
  destruct db as [docs vs], db' as [docs' vs']. simpl in *. subst docs'.
  set (new := update_updated_at_column now (apply_updates old updates sent))
    in *.
  assert (Hnew : doc_id new = id) by (simpl; eapply (keyed _ Hdb); eauto).
  assert (Hrewritten : consistent {| db_documents := <[id := new]> docs;
                                     db_versions := vs |}).
  { eapply consistent_rewrite; eauto. }
  apply create_document_version_inv in Htrigger
    as [->|(change & -> & Hdoc & _)]; [done|].
  by apply consistent_append.
Qed.

Lemma consistent_delete_document db id :
  consistent db -> consistent (delete_document db id).
Proof.
  intros [Hkeyed Howned Hrecorded]. split; simpl.
  - intros id' doc [_ Hdoc]%lookup_delete_Some. by apply Hkeyed.
  - intros v [Hne Hv]%list_elem_of_filter.
    destruct (Howned v Hv) as [doc Hdoc]. exists doc.
    by rewrite lookup_delete_ne.
  - intros id' doc [Hne Hdoc]%lookup_delete_Some.
    destruct (Hrecorded id' doc Hdoc) as (v & rest & Hvs & Hcreated).
    exists v, rest. split; [|done].
    unfold versions_of in *. simpl. rewrite <- Hvs.
    rewrite list_filter_filter. apply list_filter_iff.
    intros w. split; [tauto|]. intros Hw. split; [done|]. congruence.
Qed.

Lemma perform_consistent (a : Action) (c : DB * DocumentState) :
  consistent c.1 -> consistent (perform a c).1.
Proof.
  destruct c as [db s]. simpl. intros Hdb.
  destruct a as [fault|fault id| | |user fault id vid now title
                |env id updates|fault id|fault embed documentId
                |env documentId versionId]; simpl; try done.
  - unfold createDocument. destruct user as [u|]; [|done].
    destruct (request fault _) as [[db' row]|] eqn:Hreq; [|done].
    apply request_ok in Hreq as [_ Hreq].
    eapply consistent_insert_document; eauto.
  - unfold updateDocument.
    destruct (request (ue_fault env) _) as [db'|] eqn:Hreq; [|done].
    apply request_ok in Hreq as [_ Hreq].
    eapply consistent_update_document; eauto.
  - destruct fault; [done|]. by apply consistent_delete_document.
  - destruct (restoreVersion_db env db documentId versionId s)
      as [->|(version & db1 & _ & Hupd & Hrest)]; [done|].
    apply request_ok in Hupd as [_ Hupd].
    assert (Hdb1 : consistent db1)
      by (eapply consistent_update_document; eauto).
    destruct Hrest as [->|(user & vs & _ & Hins & ->)]; [done|].
    apply insert_version_inv in Hins as [-> Hdoc].
    destruct db1 as [docs1 vs1]. by apply consistent_append.
Qed.

Lemma run_consistent actions (c : DB * DocumentState) :
  consistent c.1 -> consistent (run actions c).1.
Proof.
  revert c. induction actions as [|a actions IH]; intros c Hc; [done|].
  simpl. apply IH. by apply perform_consistent.
Qed.

(** C7.  In every state the store can reach from empty tables, each
    stored document has at least one version, and the first version
    recorded for it has classification [created]. *)
Theorem every_document_has_created_version actions id doc :
  db_documents (run actions (db_empty, initial_state)).1 !! id = Some doc ->
  exists v rest,
    versions_of (run actions (db_empty, initial_state)).1 id = v :: rest
    /\ ver_change_type v = created.
Proof.
  intros Hdoc.
  exact (recorded _
           (run_consistent actions (db_empty, initial_state) consistent_empty)
           id doc Hdoc).
Qed.

(** The document of the worked session. *)
Lemma every_document_has_created_version_witness :
  is_Some (db_documents (run Scenario.session (db_empty, initial_state)).1
             !! "d1")
  /\ exists v rest,
       versions_of (run Scenario.session (db_empty, initial_state)).1 "d1"
       = v :: rest
       /\ ver_change_type v = created.
Proof.
  split; [vm_compute; eauto|].
  eapply (every_document_has_created_version Scenario.session "d1").
  vm_compute. reflexivity.
Defined.

(** ** Restoring twice *)

Lemma unused_version_id_app vid vs extra :
  unused_version_id vid (vs ++ extra)
  = unused_version_id vid vs && unused_version_id vid extra.
Proof.
  unfold unused_version_id. rewrite existsb_app. apply negb_orb.
Qed.

Lemma unused_version_id_singleton vid v :
  ver_id v ≠ vid -> unused_version_id vid [v] = true.
Proof.
  intros Hne. unfold unused_version_id. simpl.
  destruct (String.eqb_spec (ver_id v) vid); done.
Qed.

Lemma unused_version_id_elem vid vs v :
  unused_version_id vid vs = true -> v ∈ vs -> ver_id v ≠ vid.
Proof.
  unfold unused_version_id. intros Hfresh Hv Heq.
  apply negb_true_iff in Hfresh.
  assert (Hex : existsb (fun v => String.eqb (ver_id v) vid) vs = true).
  { apply existsb_exists. exists v. split.
    - by apply list_elem_of_In.
    - by apply String.eqb_eq. }
  congruence.
Qed.

Lemma select_version_elem db versionId version :
  select_version db versionId = Ok version ->
  version ∈ db_versions db /\ ver_id version = versionId.
Proof.
  unfold select_version.
  destruct (filter _ (db_versions db)) as [|v [|w rest]] eqn:Hfilter;
    try discriminate.
  intros [= <-].
  assert (Hv : v ∈ filter (fun v => ver_id v = versionId) (db_versions db))
    by (rewrite Hfilter; by left).
  apply list_elem_of_filter in Hv. tauto.
Qed.

(** New rows under other identifiers do not disturb the lookup. *)
Lemma select_version_app docs docs' vs extra versionId version :
  select_version {| db_documents := docs; db_versions := vs |} versionId
  = Ok version ->
  Forall (fun v => ver_id v ≠ versionId) extra ->
  select_version {| db_documents := docs'; db_versions := vs ++ extra |}
    versionId = Ok version.
Proof.
  unfold select_version. simpl. intros Hsel Hextra.
  rewrite filter_app.
  replace (filter (fun v => ver_id v = versionId) extra) with
    (@nil DocumentVersion); [by rewrite app_nil_r|].
  induction Hextra as [|v extra Hv _ IH]; [done|].
  by rewrite filter_cons_False.
Qed.

Lemma automatic_version_rules env doc version :
  automatic_version env doc version
  = match recorder_spec false (doc_title doc) (doc_content doc)
            (ver_title version) (ver_content version) with
    | Some change =>
        [version_of (rewritten env doc version) change
           (ue_vid (re_update env)) (ue_now (re_update env))]
    | None => []
    end.
Proof.
  unfold automatic_version. change UPDATE with (tg_op_of false).
  by rewrite change_type_val_rules.
Qed.

Lemma automatic_version_ids env doc version v :
  v ∈ automatic_version env doc version ->
  ver_id v = ue_vid (re_update env)
  /\ ver_change_type v ≠ restored /\ ver_change_type v ≠ created.
Proof.
  rewrite automatic_version_rules. unfold recorder_spec. simpl.
  destruct (negb (String.eqb (doc_title doc) (ver_title version))),
    (negb (String.eqb (doc_content doc) (ver_content version))); simpl;
    try (intros ->%list_elem_of_singleton; done).
  by intros ?%not_elem_of_nil.
Qed.

(** The update of a restore, when the service answers it. *)
Lemma restore_update_answered env db documentId doc version :
  ue_fault (re_update env) = None ->
  db_documents db !! documentId = Some doc ->
  doc_id doc = documentId ->
  (automatic_version env doc version = []
   \/ unused_version_id (ue_vid (re_update env)) (db_versions db) = true) ->
  restore_update env db documentId version
  = Ok {| db_documents :=
            <[documentId := rewritten env doc version]> (db_documents db);
          db_versions := db_versions db ++ automatic_version env doc version |}.
Proof.
  intros Hfault Hdoc Hid Hauto.
  unfold restore_update. rewrite Hfault. unfold request.
  unfold update_document. rewrite Hdoc.
  fold (rewritten env doc version).
  change UPDATE with (tg_op_of false).
  rewrite create_document_version_rules.
  change (doc_title (rewritten env doc version)) with (ver_title version).
  change (doc_content (rewritten env doc version)) with (ver_content version).
  rewrite automatic_version_rules in Hauto |- *.
  destruct (recorder_spec false (doc_title doc) (doc_content doc)
              (ver_title version) (ver_content version)) as [change|].
  - destruct Hauto as [Hauto|Hauto]; [discriminate|].
    rewrite insert_version_ok; [done|exact Hauto|].
    cbn [version_of ver_document_id rewritten update_updated_at_column
         apply_updates doc_id].
    rewrite Hid, lookup_insert_eq. eauto.
  - by rewrite app_nil_r.
Qed.

(** The two halves of [restoreVersion] once its first two requests are
    answered. *)
Lemma restoreVersion_after_update env db documentId versionId s version db1 :
  request (re_select_fault env) (select_version db versionId) = Ok version ->
  restore_update env db documentId version = Ok db1 ->
  (restoreVersion env db documentId versionId s).1
  = match re_user env with
    | Some user =>
        match request (re_insert_fault env)
                (insert_version (db_documents db1) (db_versions db1)
                   (restored_version env documentId version user)) with
        | Ok vs => {| db_documents := db_documents db1; db_versions := vs |}
        | Failed _ => db1
        end
    | None => db1
    end
  /\ currentDocument (restoreVersion env db documentId versionId s).2
     = match currentDocument s with
       | Some currentDoc =>
           if String.eqb (doc_id currentDoc) documentId
           then Some (apply_updates currentDoc (restore_updates version)
                        (ue_current_at (re_update env)))
           else Some currentDoc
       | None => None
       end.
Proof.
  unfold restore_update. intros Hsel Hupd.
  unfold restoreVersion. rewrite Hsel, Hupd. split; [reflexivity|].
  destruct s as [docs [currentDoc|] vs l vl err]; [|reflexivity].
  cbn. by destruct (String.eqb (doc_id currentDoc) documentId).
Qed.

(** One restore that the service answers throughout. *)
Lemma restoreVersion_answered env user db documentId versionId s doc version :
  restore_answered env user ->
  db_documents db !! documentId = Some doc ->
  doc_id doc = documentId ->
  select_version db versionId = Ok version ->
  (automatic_version env doc version = []
   \/ unused_version_id (ue_vid (re_update env)) (db_versions db) = true) ->
  unused_version_id (re_insert_vid env)
    (db_versions db ++ automatic_version env doc version) = true ->
  (restoreVersion env db documentId versionId s).1
  = {| db_documents :=
         <[documentId := rewritten env doc version]> (db_documents db);
       db_versions :=
         db_versions db ++ automatic_version env doc version
         ++ [restored_version env documentId version user] |}
  /\ forall currentDoc,
       currentDocument s = Some currentDoc ->
       doc_id currentDoc = documentId ->
       currentDocument (restoreVersion env db documentId versionId s).2
       = Some (apply_updates currentDoc (restore_updates version)
                 (ue_current_at (re_update env))).
Proof.
  intros (Hsel_fault & Hupd_fault & Huser & Hins_fault) Hdoc Hid Hsel
    Hauto Hfresh.
  destruct (restoreVersion_after_update env db documentId versionId s version
              {| db_documents :=
                   <[documentId := rewritten env doc version]>
                     (db_documents db);
                 db_versions :=
                   db_versions db ++ automatic_version env doc version |})
    as [Hdb Hstate].
  { by rewrite Hsel_fault. }
  { by apply restore_update_answered. }
  split.
  - rewrite Hdb, Huser, Hins_fault. unfold request.
    cbn [db_documents db_versions].
    rewrite insert_version_ok.
    + by rewrite <- app_assoc.
    + exact Hfresh.
    + cbn [restored_version ver_document_id].
      rewrite lookup_insert_eq. eauto.
  - intros currentDoc Hcur Hcur_id. rewrite Hstate, Hcur.
    by rewrite Hcur_id, String.eqb_refl.
Qed.

Lemma automatic_version_same env doc version :
  doc_title doc = ver_title version ->
  doc_content doc = ver_content version ->
  automatic_version env doc version = [].
Proof.
  intros Htitle Hcontent. rewrite automatic_version_rules.
  unfold recorder_spec.
  rewrite Htitle, Hcontent, !String.eqb_refl. reflexivity.
Qed.

Lemma automatic_version_length env doc version :
  length (automatic_version env doc version)
  = if String.eqb (doc_title doc) (ver_title version)
       && String.eqb (doc_content doc) (ver_content version)
    then 0 else 1.
Proof.
  rewrite automatic_version_rules. unfold recorder_spec.
  destruct (String.eqb (doc_title doc) (ver_title version)),
    (String.eqb (doc_content doc) (ver_content version)); reflexivity.
Qed.

Lemma fresh_ids_three a b c vs :
  fresh_ids [a; b; c] vs = true ->
  (a ≠ b /\ a ≠ c /\ b ≠ c)
  /\ unused_version_id a vs = true
  /\ unused_version_id b vs = true
  /\ unused_version_id c vs = true.
Proof.
  unfold fresh_ids. simpl.
  intros [Hdup Hunused]%andb_true_iff.
  apply bool_decide_eq_true in Hdup.
  apply andb_true_iff in Hunused as [Ha Hunused].
  apply andb_true_iff in Hunused as [Hb Hunused].
  apply andb_true_iff in Hunused as [Hc _].
  apply NoDup_cons in Hdup as [Hab Hdup].
  apply NoDup_cons in Hdup as [Hbc _].
  repeat split; try done.
  - intros ->. apply Hab. by left.
  - intros ->. apply Hab. right. by left.
  - intros ->. apply Hbc. by left.
Qed.

(** C4 (amended).  Two restores of version V of document D in a row, by
    a signed-in user and with every request answered: after each call the
    stored document, and the store's current document when it is D,
    carry V's title and content; each call appends
    exactly one version with classification [restored], carrying V's title
    and content; the second call appends nothing else; the first call also
    appends, before its [restored] version, the version the trigger
    records for the rewrite, which exists exactly when D's title or content
    differed from V's. *)
Theorem restore_twice env1 env2 user1 user2 db documentId versionId s
    doc version :
  restore_answered env1 user1 ->
  restore_answered env2 user2 ->
  db_documents db !! documentId = Some doc ->
  doc_id doc = documentId ->
  select_version db versionId = Ok version ->
  fresh_ids [ue_vid (re_update env1); re_insert_vid env1; re_insert_vid env2]
    (db_versions db) = true ->
  let r1 := restoreVersion env1 db documentId versionId s in
  let r2 := restoreVersion env2 r1.1 documentId versionId r1.2 in
  (exists d1, db_documents r1.1 !! documentId = Some d1
              /\ doc_title d1 = ver_title version
              /\ doc_content d1 = ver_content version)
  /\ (exists d2, db_documents r2.1 !! documentId = Some d2
                 /\ doc_title d2 = ver_title version
                 /\ doc_content d2 = ver_content version)
  /\ db_versions r1.1
     = db_versions db ++ automatic_version env1 doc version
       ++ [restored_version env1 documentId version user1]
  /\ db_versions r2.1
     = db_versions r1.1 ++ [restored_version env2 documentId version user2]
  /\ (forall v, v ∈ automatic_version env1 doc version ->
                ver_change_type v ≠ restored)
  /\ length (automatic_version env1 doc version)
     = (if String.eqb (doc_title doc) (ver_title version)
           && String.eqb (doc_content doc) (ver_content version)
        then 0 else 1)
  /\ (forall currentDoc,
         currentDocument s = Some currentDoc ->
         doc_id currentDoc = documentId ->
         exists c1 c2,
           currentDocument r1.2 = Some c1
           /\ currentDocument r2.2 = Some c2
           /\ doc_title c1 = ver_title version
           /\ doc_content c1 = ver_content version
           /\ doc_title c2 = ver_title version
           /\ doc_content c2 = ver_content version).
Proof.
  intros Henv1 Henv2 Hdoc Hid Hsel Hfresh r1 r2.
  apply fresh_ids_three in Hfresh
    as ((Hab & Hac & Hbc) & Ha & Hb & Hc).
  assert (Hauto_ids : forall v, v ∈ automatic_version env1 doc version ->
                                ver_id v = ue_vid (re_update env1)).
  { intros v Hv. by apply automatic_version_ids in Hv as [? _]. }
  assert (Hauto_unused : forall vid, vid ≠ ue_vid (re_update env1) ->
             unused_version_id vid (automatic_version env1 doc version)
             = true).
  { intros vid Hne. rewrite automatic_version_rules.
    destruct (recorder_spec _ _ _ _ _); [|done].
    apply unused_version_id_singleton. simpl. congruence. }
  destruct (restoreVersion_answered env1 user1 db documentId versionId s
              doc version) as [Hr1 Hcur1]; try done.
  { by right. }
  { rewrite unused_version_id_app, Hb, Hauto_unused; [done|congruence]. }
  fold r1 in Hr1, Hcur1.
  apply select_version_elem in Hsel as Hversion.
  destruct Hversion as [Hversion Hversion_id].
  destruct (restoreVersion_answered env2 user2 r1.1 documentId versionId r1.2
              (rewritten env1 doc version) version) as [Hr2 Hcur2];
    try done.
  { rewrite Hr1. simpl. apply lookup_insert_eq. }
  { rewrite Hr1. destruct db as [docs vs]. simpl.
    apply (select_version_app docs); [done|].
    apply Forall_app. split.
    - apply Forall_forall. intros v Hv. rewrite (Hauto_ids v Hv).
      intros Heq. eapply (unused_version_id_elem _ _ version Ha); eauto.
      congruence.
    - apply Forall_singleton. simpl.
      intros Heq. eapply (unused_version_id_elem _ _ version Hb); eauto.
      congruence. }
  { left. by apply automatic_version_same. }
  { rewrite automatic_version_same, app_nil_r by done.
    rewrite Hr1. simpl.
    rewrite !unused_version_id_app, Hc, Hauto_unused by congruence.
    simpl. apply unused_version_id_singleton. simpl. congruence. }
  fold r2 in Hr2, Hcur2.
  rewrite automatic_version_same in Hr2 by done.
  split; [|split; [|split; [|split; [|split; [|split]]]]].
  - exists (rewritten env1 doc version). rewrite Hr1. simpl.
    by rewrite lookup_insert_eq.
  - exists (rewritten env2 (rewritten env1 doc version) version).
    rewrite Hr2. simpl. by rewrite lookup_insert_eq.
  - by rewrite Hr1.
  - by rewrite Hr2.
  - intros v Hv. by apply automatic_version_ids in Hv as (_ & ? & _).
  - apply automatic_version_length.
  - intros currentDoc Hcur Hcur_id.
    specialize (Hcur1 currentDoc Hcur Hcur_id).
    specialize (Hcur2 _ Hcur1 Hcur_id).
    eexists _, _. split; [exact Hcur1|]. split; [exact Hcur2|]. done.
Qed.

(** Restoring the first version twice at the end of the worked session. *)
Lemma restore_twice_witness :
  let env1 := Scenario.restore_env (Some Scenario.alice) None "v4" "v5" 400 in
  let env2 := Scenario.restore_env (Some Scenario.alice) None "v6" "v7" 500 in
  let db := Scenario.after_session.1 in
  let r1 := restoreVersion env1 db "d1" "v1" Scenario.after_session.2 in
  let r2 := restoreVersion env2 r1.1 "d1" "v1" r1.2 in
  fresh_ids ["v4"; "v5"; "v7"] (db_versions db) = true
  /\ (ver_change_type <$> db_versions r1.1)
     = [created; content_modified; title_updated; content_modified; restored]
  /\ exists doc version,
       db_versions r2.1
       = db_versions r1.1 ++ [restored_version env2 "d1" version Scenario.alice]
       /\ length (automatic_version env1 doc version) = 1.
Proof.
  intros env1 env2 db r1 r2.
  split; [vm_compute; reflexivity|].
  split; [vm_compute; reflexivity|].
  destruct (db_documents db !! "d1") as [doc|] eqn:Hdoc;
    [|vm_compute in Hdoc; discriminate].
  destruct (select_version db "v1") as [version|] eqn:Hsel;
    [|vm_compute in Hsel; discriminate].
  exists doc, version.
  assert (Hid : doc_id doc = "d1")
    by (vm_compute in Hdoc; by injection Hdoc as <-).
  assert (Hlen : (if String.eqb (doc_title doc) (ver_title version)
                     && String.eqb (doc_content doc) (ver_content version)
                  then 0 else 1) = 1).
  { vm_compute in Hdoc, Hsel.
    injection Hdoc as <-. injection Hsel as <-. reflexivity. }
  pose proof (restore_twice env1 env2 Scenario.alice Scenario.alice db
                "d1" "v1" Scenario.after_session.2 doc version
                (conj eq_refl (conj eq_refl (conj eq_refl eq_refl)))
                (conj eq_refl (conj eq_refl (conj eq_refl eq_refl)))
                Hdoc Hid Hsel eq_refl) as (_ & _ & _ & Hr2 & _ & Hauto & _).
  split; [exact Hr2|]. by rewrite Hauto.
Defined.

(** C4, as stated, fails: the two restores above, all requests answered,
    leave three new versions, not two; the first call appends the
    trigger's [content_modified] version next to its [restored] one. *)
Lemma restore_twice_appends_three :
  let env1 := Scenario.restore_env (Some Scenario.alice) None "v4" "v5" 400 in
  let env2 := Scenario.restore_env (Some Scenario.alice) None "v6" "v7" 500 in
  let db := Scenario.after_session.1 in
  let r1 := restoreVersion env1 db "d1" "v1" Scenario.after_session.2 in
  let r2 := restoreVersion env2 r1.1 "d1" "v1" r1.2 in
  (restore_answered env1 Scenario.alice /\ restore_answered env2 Scenario.alice)
  /\ error r1.2 = None /\ error r2.2 = None
  /\ (ver_change_type <$> drop (length (db_versions db)) (db_versions r1.1))
     = [content_modified; restored]
  /\ (ver_change_type <$> drop (length (db_versions db)) (db_versions r2.1))
     = [content_modified; restored; restored]
  /\ length (db_versions r2.1) ≠ length (db_versions db) + 2.
Proof.
  intros env1 env2 db r1 r2.
  split; [by repeat split|].
  vm_compute. repeat split; try reflexivity. discriminate.
Qed.

(** ** Creating a document from the dashboard *)

Lemma trimStart_blank s : blank s = true -> trimStart s = "".
Proof.
  induction s as [|c s IH]; [done|]. simpl.
  intros [Hc Hs]%andb_true_iff. rewrite Hc. by apply IH.
Qed.

Lemma trimEnd_empty s : trimEnd s = "" -> blank s = true.
Proof.
  induction s as [|c s IH]; [done|]. simpl.
  destruct (trimEnd s) as [|c' r]; [|discriminate].
  destruct (is_white_space c); [|discriminate].
  intros _. by rewrite IH.
Qed.

Lemma trimStart_keeps_content s : blank (trimStart s) = blank s.
Proof.
  induction s as [|c s IH]; [done|]. simpl.
  destruct (is_white_space c) eqn:Hc; [done|]. simpl. by rewrite Hc.
Qed.

(** The guard of [handleCreateDocument] holds of the blank titles, and
    of no other. *)
Lemma trim_empty_iff s : trim s = "" <-> blank s = true.
Proof.
  unfold trim. split.
  - intros Hs%trimEnd_empty. by rewrite trimStart_keeps_content in Hs.
  - intros Hs. by rewrite trimStart_blank.
Qed.

(** C6 (amended).  For a title that is empty or white space only,
    [handleCreateDocument] returns before it calls the store: the tables,
    the store (its error message included) and the page are left as they
    were.  No row is created, and no error is raised or recorded. *)
Theorem blank_title_creates_nothing user fault id vid now db page s :
  blank (newDocTitle page) = true ->
  handleCreateDocument user fault id vid now db page s = (db, s, page).
Proof.
  intros Hblank%trim_empty_iff. unfold handleCreateDocument.
  by rewrite Hblank.
Qed.

(** A title of three spaces, typed at the end of the worked session. *)
Lemma blank_title_creates_nothing_witness :
  let page := {| isCreating := true; newDocTitle := "   ";
                 location := None |} in
  blank (newDocTitle page) = true
  /\ handleCreateDocument (Some Scenario.alice) None "d2" "v4" 400
       Scenario.after_session.1 page Scenario.after_session.2
     = (Scenario.after_session.1, Scenario.after_session.2, page).
Proof.
  intros page. split; [reflexivity|].
  apply (blank_title_creates_nothing (Some Scenario.alice) None "d2" "v4" 400
           Scenario.after_session.1 page Scenario.after_session.2).
  reflexivity.
Defined.

(** C6, as stated, fails: the handler rejects a blank title without any
    error, and [createDocument] itself checks nothing: called with the
    same title it stores a row. *)
Lemma blank_title_raises_no_error :
  let page := {| isCreating := true; newDocTitle := "   ";
                 location := None |} in
  let r := handleCreateDocument (Some Scenario.alice) None "d2" "v4" 400
             Scenario.after_session.1 page Scenario.after_session.2 in
  let direct := createDocument (Some Scenario.alice) None "d2" "v4" 400
                  Scenario.after_session.1 "   " Scenario.after_session.2 in
  blank "   " = true
  /\ error r.1.2 = None
  /\ direct.2 = Ok "d2"
  /\ error direct.1.2 = None
  /\ (doc_title <$> db_documents direct.1.1 !! "d2") = Some "   ".
Proof. vm_compute. repeat split; reflexivity. Qed.

(** ** The debounced auto-save *)

Section AutoSave.
Import DocumentPage.

(** One step, by the kind of what it shows. *)
Lemma step_inv p te q o :
  step p te = Some (q, o) ->
  (clock p <= te.1)%Z /\ clock q = te.1 /\ id q = id p
  /\ match o with
     | Edited t ti co =>
         t = te.1 /\ title q = ti /\ content q = co
         /\ currentDocument q = currentDocument p
         /\ (forall due, timeoutId q = Some due -> due = (t + 1000)%Z)
     | Reloaded t =>
         t = te.1 /\ saveDocument q = None
         /\ (forall due, timeoutId q = Some due -> due = (t + 1000)%Z)
     | Saved t i updates =>
         t = te.1 /\ saveDocument p = Some (i, updates)
         /\ (exists due, timeoutId p = Some due /\ (due <= t)%Z)
         /\ timeoutId q = None
         /\ title q = title p /\ content q = content p
         /\ currentDocument q = currentDocument p
     | Quiet =>
         title q = title p /\ content q = content p
         /\ currentDocument q = currentDocument p
         /\ (timeoutId q = timeoutId p \/ timeoutId q = None)
     end.
Proof.
  unfold step. destruct te as [t ev]. simpl.
  destruct (Z.ltb_spec t (clock p)) as [|Hclock]; [discriminate|].
  destruct ev as [newTitle|newContent|[doc|]|].
  - destruct (String.eqb newTitle (title p)); intros [= <- <-]; simpl.
    + auto 10.
    + repeat split; try done.
      destruct (currentDocument p); congruence.
  - destruct (String.eqb newContent (content p)); intros [= <- <-]; simpl.
    + auto 10.
    + repeat split; try done.
      destruct (currentDocument p); congruence.
  - intros [= <- <-]. simpl. repeat split; try done.
    + unfold saveDocument. simpl. destruct (id p) as [i|]; [|done].
      rewrite !String.eqb_refl. simpl. by destruct (String.eqb i "").
    + congruence.
  - intros [= <- <-]. simpl. repeat split; try done.
    unfold saveDocument. simpl. by destruct (id p).
  - destruct (timeoutId p) as [due|] eqn:Hdue; [|discriminate].
    destruct (Z.leb_spec due t) as [Hle|]; [|discriminate].
    intros [= <- <-].
    destruct (saveDocument p) as [[i updates]|] eqn:Hsave; simpl.
    + repeat split; try done. eauto.
    + auto 10.
Qed.

Lemma run_cons_inv p events q o os :
  run p events = Some (q, o :: os) ->
  exists te rest p',
    events = te :: rest /\ step p te = Some (p', o)
    /\ run p' rest = Some (q, os).
Proof.
  destruct events as [|te rest]; [discriminate|]. simpl.
  destruct (step p te) as [[p' o']|] eqn:Hstep; [|discriminate].
  destruct (run p' rest) as [[q' os']|] eqn:Hrun; [|discriminate].
  intros [= <- <- <-]. eauto 10.
Qed.

(** The state in which a given observation of a run is made. *)
Lemma run_app_inv pre : forall p events q o post,
  run p events = Some (q, pre ++ o :: post) ->
  exists p1 te p2 rest,
    step p1 te = Some (p2, o) /\ run p2 rest = Some (q, post).
Proof.
  induction pre as [|o' pre IH]; intros p events q o post Hrun.
  - apply run_cons_inv in Hrun as (te & rest & p' & _ & Hstep & Hrest).
    eauto 10.
  - apply run_cons_inv in Hrun as (te & rest & p' & _ & _ & Hrest).
    eapply IH, Hrest.
Qed.

(** After an edit at [t1], no save before [t1 + 1000]. *)
Lemma quiet_period t1 mid : forall p events q t2 i updates post,
  (t1 <= clock p)%Z ->
  (forall due, timeoutId p = Some due -> (t1 + 1000 <= due)%Z) ->
  run p events = Some (q, mid ++ Saved t2 i updates :: post) ->
  (t1 + 1000 <= t2)%Z.
Proof.
  induction mid as [|o mid IH]; intros p events q t2 i updates post
    Hclock Htimer Hrun;
    apply run_cons_inv in Hrun as (te & rest & p' & _ & Hstep & Hrest);
    apply step_inv in Hstep as (Hle & Hclock' & _ & Hobs).
  - destruct Hobs as (-> & _ & (due & Hdue & Hfire) & _).
    specialize (Htimer due Hdue). lia.
  - eapply IH; [| |exact Hrest]; [lia|].
    intros due Hdue. destruct o.
    + destruct Hobs as (-> & _ & _ & _ & Hnew).
      rewrite (Hnew due Hdue). lia.
    + destruct Hobs as (-> & _ & Hnew). rewrite (Hnew due Hdue). lia.
    + destruct Hobs as (_ & _ & _ & Hnone & _). congruence.
    + destruct Hobs as (_ & _ & _ & [Hsame|Hnone]); [|congruence].
      apply Htimer. congruence.
Qed.

Lemma saveDocument_ext p q :
  id q = id p -> title q = title p -> content q = content p ->
  currentDocument q = currentDocument p ->
  saveDocument q = saveDocument p.
Proof. unfold saveDocument. by intros -> -> -> ->. Qed.

(** With no edit in between, a save carries the fields of the last
    edit. *)
Lemma latest_fields ti co mid : forall p events q t2 i updates post,
  (title p = ti /\ content p = co) \/ saveDocument p = None ->
  existsb is_edit mid = false ->
  run p events = Some (q, mid ++ Saved t2 i updates :: post) ->
  updates = {| upd_title := Some ti; upd_content := Some co |}.
Proof.
  induction mid as [|o mid IH]; intros p events q t2 i updates post
    Hfields Hmid Hrun;
    apply run_cons_inv in Hrun as (te & rest & p' & _ & Hstep & Hrest);
    apply step_inv in Hstep as (_ & _ & Hid & Hobs).
  - destruct Hobs as (_ & Hsave & _).
    destruct Hfields as [[<- <-]|Hnone]; [|congruence].
    unfold saveDocument in Hsave.
    destruct (id p), (currentDocument p); try discriminate.
    destruct (String.eqb _ ""); [discriminate|].
    destruct (_ && _); [discriminate|]. congruence.
  - simpl in Hmid. apply orb_false_iff in Hmid as [Ho Hmid].
    eapply IH; [|exact Hmid|exact Hrest].
    destruct o; try discriminate.
    + right. tauto.
    + destruct Hobs as (_ & Hsave & _ & _ & Htitle & Hcontent & _).
      destruct Hfields as [[<- <-]|Hnone]; [by left|congruence].
    + destruct Hobs as (Htitle & Hcontent & Hdoc & _).
      destruct Hfields as [[<- <-]|Hnone]; [by left|].
      right. rewrite <- Hnone. by apply saveDocument_ext.
Qed.

(** Without an edit, a save is not followed by another. *)
Lemma no_second_save mid : forall p events q t2 i updates post,
  timeoutId p = None \/ saveDocument p = None ->
  run p events = Some (q, mid ++ Saved t2 i updates :: post) ->
  existsb is_edit mid = true.
Proof.
  induction mid as [|o mid IH]; intros p events q t2 i updates post
    Hidle Hrun;
    apply run_cons_inv in Hrun as (te & rest & p' & _ & Hstep & Hrest);
    apply step_inv in Hstep as (_ & _ & Hid & Hobs).
  - destruct Hobs as (_ & Hsave & (due & Hdue & _) & _).
    destruct Hidle; congruence.
  - destruct o; simpl; [done| | |].
    + eapply IH; [|exact Hrest]. right. tauto.
    + eapply IH; [|exact Hrest]. left. tauto.
    + eapply IH; [|exact Hrest].
      destruct Hobs as (Htitle & Hcontent & Hdoc & Htimer).
      destruct Hidle as [Hnone|Hnone].
      * left. destruct Htimer; congruence.
      * right. rewrite <- Hnone. by apply saveDocument_ext.
Qed.

(** C9.  In every run of the document page: a save is issued no sooner
    than 1000 ms after any earlier edit; it carries the title and content
    left by the latest edit; between two saves there is an edit, so the
    edits of one burst end in a single save; after the page has taken its
    fields from the stored document, no save is issued before an edit;
    and a timer that fires while title and content equal the stored
    document's issues no save. *)
Theorem autosave_is_debounced p events q obs :
  run p events = Some (q, obs) ->
  (forall pre t1 ti co mid t2 i updates post,
      obs = pre ++ Edited t1 ti co :: mid ++ Saved t2 i updates :: post ->
      (t1 + 1000 <= t2)%Z
      /\ (existsb is_edit mid = false ->
          updates = {| upd_title := Some ti; upd_content := Some co |}))
  /\ (forall pre t1 i1 u1 mid t2 i2 u2 post,
         obs = pre ++ Saved t1 i1 u1 :: mid ++ Saved t2 i2 u2 :: post ->
         existsb is_edit mid = true)
  /\ (forall pre t1 mid t2 i updates post,
         obs = pre ++ Reloaded t1 :: mid ++ Saved t2 i updates :: post ->
         existsb is_edit mid = true)
  /\ (forall p' te q' o doc,
         step p' te = Some (q', o) ->
         currentDocument p' = Some doc ->
         title p' = doc_title doc -> content p' = doc_content doc ->
         is_edit o = true \/ o = Reloaded te.1 \/ o = Quiet).
Proof.
  intros Hrun. split; [|split; [|split]].
  - intros pre t1 ti co mid t2 i updates post ->.
    apply run_app_inv in Hrun as (p1 & te & p2 & rest & Hstep & Hrest).
    apply step_inv in Hstep as (_ & Hclock & _ & -> & Hti & Hco & _ & Hdue).
    split.
    + eapply quiet_period; [| |exact Hrest]; [lia|].
      intros due Hsome. rewrite (Hdue due Hsome). lia.
    + intros Hmid. eapply latest_fields; [|exact Hmid|exact Hrest].
      by left.
  - intros pre t1 i1 u1 mid t2 i2 u2 post ->.
    apply run_app_inv in Hrun as (p1 & te & p2 & rest & Hstep & Hrest).
    apply step_inv in Hstep as (_ & _ & _ & _ & _ & _ & Hnone & _).
    eapply no_second_save; [|exact Hrest]. by left.
  - intros pre t1 mid t2 i updates post ->.
    apply run_app_inv in Hrun as (p1 & te & p2 & rest & Hstep & Hrest).
    apply step_inv in Hstep as (_ & _ & _ & _ & Hnone & _).
    eapply no_second_save; [|exact Hrest]. by right.
  - intros p' te q' o doc Hstep Hdoc Htitle Hcontent.
    apply step_inv in Hstep as (_ & _ & _ & Hobs).
    destruct o as [t ti co|t|t i updates|]; [by left| | |by auto].
    + destruct Hobs as [-> _]. auto.
    + destruct Hobs as (_ & Hsave & _). exfalso.
      unfold saveDocument in Hsave. rewrite Hdoc, Htitle, Hcontent in Hsave.
      rewrite !String.eqb_refl in Hsave.
      destruct (id p'); [|discriminate].
      by destruct (String.eqb _ "").
Qed.

End AutoSave.

(** The page of the worked session: two keystrokes, one save. *)
Lemma autosave_is_debounced_witness :
  exists q,
    DocumentPage.run (DocumentPage.mount (Some "d1") 0) Scenario.typing
    = Some (q, [ DocumentPage.Reloaded 0;
                 DocumentPage.Edited 100 "Draft" "H";
                 DocumentPage.Edited 300 "Draft" "He";
                 DocumentPage.Saved 1300 "d1" (Scenario.save "Draft" "He");
                 DocumentPage.Reloaded 1350;
                 DocumentPage.Quiet ])
    /\ (300 + 1000 <= 1300)%Z.
Proof.
  eexists. split; [vm_compute; reflexivity|].
  refine (proj1 (proj1 (autosave_is_debounced (DocumentPage.mount (Some "d1") 0)
                          Scenario.typing _ _ _)
                   [DocumentPage.Reloaded 0; DocumentPage.Edited 100 "Draft" "H"]
                   300%Z "Draft" "He" [] 1300%Z "d1"
                   (Scenario.save "Draft" "He")
                   [DocumentPage.Reloaded 1350; DocumentPage.Quiet] _)).
  - vm_compute. reflexivity.
  - reflexivity.
Defined.

(** * Further properties of the store and the tables *)

(** ** Identifiers of versions *)

Lemma unused_version_id_not_elem vid vs :
  unused_version_id vid vs = true -> vid ∉ ver_id <$> vs.
Proof.
  intros Hunused [v [-> Hv]]%list_elem_of_fmap.
  by eapply unused_version_id_elem.
Qed.

Lemma insert_version_unused docs vs row vs' :
  insert_version docs vs row = Ok vs' ->
  unused_version_id (ver_id row) vs = true.
Proof.
  unfold insert_version, unused_version_id.
  destruct (existsb _ vs); [discriminate|done].
Qed.

Lemma insert_version_unique docs vs row vs' :
  NoDup (ver_id <$> vs) ->
  insert_version docs vs row = Ok vs' ->
  NoDup (ver_id <$> vs').
Proof.
  intros Hvs Hins.
  pose proof (insert_version_unused _ _ _ _ Hins) as Hunused.
  apply insert_version_inv in Hins as [-> _].
  rewrite fmap_app. apply NoDup_app. split; [done|]. split.
  - intros vid Hvid ->%list_elem_of_singleton.
    by apply (unused_version_id_not_elem _ _ Hunused).
  - apply NoDup_singleton.
Qed.

Lemma create_document_version_unique tg_op OLD NEW vid now docs vs vs' :
  NoDup (ver_id <$> vs) ->
  create_document_version tg_op OLD NEW vid now docs vs = Ok vs' ->
  NoDup (ver_id <$> vs').
Proof.
  unfold create_document_version.
  destruct (change_type_val _ _ _ _ _); [|by intros ? [= <-]].
  apply insert_version_unique.
Qed.

Lemma update_document_unique db id updates sent vid now db' :
  versions_unique db ->
  update_document db id updates sent vid now = Ok db' ->
  versions_unique db'.
Proof.
  intros Hdb [[_ ->]|(old & _ & _ & Htrigger)]%update_document_inv; [done|].
  by eapply create_document_version_unique.
Qed.

Lemma perform_unique (a : Action) (c : DB * DocumentState) :
  versions_unique c.1 -> versions_unique (perform a c).1.
Proof.
  destruct c as [db s]. simpl. intros Hdb.
  destruct a as [fault|fault id| | |user fault id vid now title
                |env id updates|fault id|fault embed documentId
                |env documentId versionId]; simpl; try done.
  - unfold createDocument. destruct user as [u|]; [|done].
    destruct (request fault _) as [[db' row]|] eqn:Hreq; [|done].
    apply request_ok in Hreq as [_ Hreq]. simpl.
    unfold insert_document in Hreq.
    destruct (db_documents db !! id); [discriminate|].
    destruct (create_document_version _ _ _ _ _ _ _) as [vs|] eqn:Htrigger;
      [|discriminate].
    injection Hreq as <- _.
    by eapply create_document_version_unique.
  - unfold updateDocument.
    destruct (request (ue_fault env) _) as [db'|] eqn:Hreq; [|done].
    apply request_ok in Hreq as [_ Hreq].
    by eapply update_document_unique.
  - destruct fault; [done|]. unfold versions_unique. simpl.
    eapply sublist_NoDup; [exact Hdb|].
    apply fmap_sublist, sublist_filter.
  - destruct (restoreVersion_db env db documentId versionId s)
      as [->|(version & db1 & _ & Hupd & Hrest)]; [done|].
    apply request_ok in Hupd as [_ Hupd].
    assert (Hdb1 : versions_unique db1)
      by (eapply update_document_unique; eauto).
    destruct Hrest as [->|(user & vs & _ & Hins & ->)]; [done|].
    by eapply insert_version_unique.
Qed.

Lemma run_unique actions (c : DB * DocumentState) :
  versions_unique c.1 -> versions_unique (run actions c).1.
Proof.
  revert c. induction actions as [|a actions IH]; intros c Hc; [done|].
  simpl. apply IH. by apply perform_unique.
Qed.

Lemma filter_key_absent (vs : list DocumentVersion) vid :
  vid ∉ ver_id <$> vs -> filter (fun w => ver_id w = vid) vs = [].
Proof.
  induction vs as [|w vs IH]; [done|]. rewrite fmap_cons.
  intros Habsent. rewrite filter_cons_False.
  - apply IH. intros Hin. apply Habsent. by right.
  - intros Heq. apply Habsent. rewrite Heq. by left.
Qed.

Lemma filter_by_unique_key (vs : list DocumentVersion) v :
  NoDup (ver_id <$> vs) -> v ∈ vs ->
  filter (fun w => ver_id w = ver_id v) vs = [v].
Proof.
  induction vs as [|w vs IH]; intros Hdup Hv.
  - by apply not_elem_of_nil in Hv.
  - rewrite fmap_cons in Hdup. apply NoDup_cons in Hdup as [Hw Hdup].
    apply elem_of_cons in Hv as [->|Hv].
    + rewrite filter_cons_True by done. by rewrite filter_key_absent.
    + rewrite filter_cons_False; [by apply IH|].
      intros Heq. apply Hw. rewrite Heq. by apply list_elem_of_fmap_2.
Qed.

(** X1.  In every state reached from empty tables, version identifiers
    are unique, and every stored version is the one row that a lookup by
    its identifier returns. *)
Theorem stored_version_is_found_by_id actions v :
  let db := (run actions (db_empty, initial_state)).1 in
  v ∈ db_versions db ->
  NoDup (ver_id <$> db_versions db)
  /\ select_version db (ver_id v) = Ok v.
Proof.
  intros db Hv.
  assert (Hunique : versions_unique db).
  { apply (run_unique actions (db_empty, initial_state)).
    unfold versions_unique. simpl. apply NoDup_nil_2. }
  split; [exact Hunique|].
  unfold select_version. by rewrite filter_by_unique_key.
Qed.

Lemma stored_version_is_found_by_id_witness :
  let db := (run Scenario.session (db_empty, initial_state)).1 in
  let v := {| ver_id := "v2"; ver_document_id := "d1";
              ver_title := "Draft"; ver_content := "Hello";
              ver_change_type := content_modified; ver_user_id := "u1";
              ver_user_email := None; ver_created_at := 200 |} in
  v ∈ db_versions db /\ select_version db "v2" = Ok v.
Proof.
  intros db v.
  assert (Hin : v ∈ db_versions db).
  { apply list_elem_of_In. vm_compute. right. left. reflexivity. }
  split; [exact Hin|].
  exact (proj2 (stored_version_is_found_by_id Scenario.session v Hin)).
Defined.

(** ** Referential integrity *)

(** X2.  In every state reached from empty tables, each version belongs
    to a stored document, and each document is stored under its own id. *)
Theorem versions_reference_documents actions :
  let db := (run actions (db_empty, initial_state)).1 in
  (forall v, v ∈ db_versions db ->
             exists doc, db_documents db !! ver_document_id v = Some doc
                         /\ doc_id doc = ver_document_id v)
  /\ (forall id doc, db_documents db !! id = Some doc -> doc_id doc = id).
Proof.
  intros db.
  pose proof (run_consistent actions (db_empty, initial_state)
                consistent_empty) as [Hkeyed Howned _].
  split; [|exact Hkeyed].
  intros v Hv. destruct (Howned v Hv) as [doc Hdoc].
  exists doc. split; [exact Hdoc|]. by apply Hkeyed.
Qed.

(** ** The version log follows the document *)










(** ** Creating, reading and updating documents *)

Lemma createDocument_inserted user id vid now db title s :
  db_documents db !! id = None ->
  unused_version_id vid (db_versions db) = true ->
  createDocument (Some user) None id vid now db title s
  = ({| db_documents :=
          <[id := new_document id title user now]> (db_documents db);
        db_versions :=
          db_versions db
          ++ [version_of (new_document id title user now) created vid now] |},
     {| documents := new_document id title user now :: documents s;
        currentDocument := currentDocument s;
        versions := versions s;
        loading := false;
        versionsLoading := versionsLoading s;
        error := None |},
     Ok id).
Proof.
  intros Hfree Hunused.
  unfold createDocument, insert_document, request. rewrite Hfree.
  fold (new_document id title user now).
  unfold create_document_version. cbn [change_type_val].
  rewrite insert_version_ok; [reflexivity|exact Hunused|].
  cbn [version_of ver_document_id new_document doc_id].
  rewrite lookup_insert_eq. eauto.
Qed.

(** X4.  [createDocument] by a signed-in user, answered by the service,
    with unused identifiers: the tables gain the document, with empty
    content, and exactly one version, its [created] snapshot; the store
    puts the document at the head of its list, clears error and loading,
    and returns the new id. *)
Theorem createDocument_creates user id vid now db title s :
  db_documents db !! id = None ->
  unused_version_id vid (db_versions db) = true ->
  createDocument (Some user) None id vid now db title s
  = ({| db_documents :=
          <[id := new_document id title user now]> (db_documents db);
        db_versions :=
          db_versions db
          ++ [version_of (new_document id title user now) created vid now] |},
     {| documents := new_document id title user now :: documents s;
        currentDocument := currentDocument s;
        versions := versions s;
        loading := false;
        versionsLoading := versionsLoading s;
        error := None |},
     Ok id).
Proof. apply createDocument_inserted. Qed.

Lemma createDocument_creates_witness :
  let db := Scenario.after_session.1 in
  let s := Scenario.after_session.2 in
  db_documents db !! "d2" = None
  /\ (createDocument (Some Scenario.alice) None "d2" "v4" 400 db "Notes" s).2
     = Ok "d2".
Proof.
  intros db s. split; [vm_compute; reflexivity|].
  rewrite (createDocument_creates Scenario.alice "d2" "v4" 400 db "Notes" s).
  - reflexivity.
  - vm_compute; reflexivity.
  - vm_compute; reflexivity.
Defined.

Lemma createDocument_outcome user fault id vid now db title s :
  let r := createDocument user fault id vid now db title s in
  match r.2 with
  | Failed e =>
      r.1.1 = db /\ same_data s r.1.2
      /\ error r.1.2 = Some (error_text "Failed to create document" e)
      /\ loading r.1.2 = false
  | Ok docId =>
      docId = id
      /\ db_documents db !! id = None
      /\ exists doc,
           db_documents r.1.1 !! docId = Some doc
           /\ doc_title doc = title /\ doc_content doc = ""
           /\ documents r.1.2 = doc :: documents s
           /\ error r.1.2 = None
  end.
Proof.
  unfold createDocument. destruct user as [u|]; [|by simpl].
  destruct (request fault _) as [[db' row]|e] eqn:Hreq; [|by simpl].
  apply request_ok in Hreq as [_ Hreq].
  apply insert_document_inv in Hreq
    as (Hfree & Hid & Htitle & Hcontent & Hdocs & _).
  simpl. split; [done|]. split; [done|].
  exists row. rewrite Hdocs, Hid, lookup_insert_eq. done.
Qed.

(** X5.  [createDocument] is all or nothing: when it rethrows, neither
    table has changed (a failure of the trigger's insert takes the
    document back with it), the store's lists are as before, the error is
    recorded and loading is off; when it returns an id, that id is the
    key of a stored document with the given title and empty content. *)
Theorem createDocument_all_or_nothing user fault id vid now db title s :
  let r := createDocument user fault id vid now db title s in
  match r.2 with
  | Failed e =>
      r.1.1 = db /\ same_data s r.1.2
      /\ error r.1.2 = Some (error_text "Failed to create document" e)
      /\ loading r.1.2 = false
  | Ok docId =>
      docId = id
      /\ db_documents db !! id = None
      /\ exists doc,
           db_documents r.1.1 !! docId = Some doc
           /\ doc_title doc = title /\ doc_content doc = ""
           /\ documents r.1.2 = doc :: documents s
           /\ error r.1.2 = None
  end.
Proof. apply createDocument_outcome. Qed.

(** X6.  A document that [createDocument] has returned the id of is what
    [fetchDocument] then loads for that id: the current document gets the
    given title and empty content, and no error is recorded. *)
Theorem created_document_is_fetched user fault id vid now db title s
    db' s' docId s'' :
  createDocument user fault id vid now db title s = (db', s', Ok docId) ->
  let fetched := fetchDocument None db' docId s'' in
  error fetched = None
  /\ loading fetched = false
  /\ exists doc,
       currentDocument fetched = Some doc
       /\ doc_id doc = docId /\ doc_title doc = title /\ doc_content doc = "".
Proof.
  intros Hcreate.
  pose proof (createDocument_outcome user fault id vid now db title s)
    as Hall.
  rewrite Hcreate in Hall. simpl in Hall.
  destruct Hall as (-> & Hfree & doc & Hdoc & Htitle & Hcontent & _).
  unfold fetchDocument, select_document, request. rewrite Hdoc. simpl.
  do 2 (split; [reflexivity|]). exists doc. repeat split; try done.
  unfold createDocument in Hcreate. destruct user as [u|]; [|discriminate].
  destruct (request fault _) as [[db1 row]|e] eqn:Hreq; [|discriminate].
  apply request_ok in Hreq as [_ Hreq].
  apply insert_document_inv in Hreq as (_ & Hid & _ & _ & Hdocs & _).
  injection Hcreate as <- _ _. rewrite Hdocs, lookup_insert_eq in Hdoc.
  congruence.
Qed.

Lemma created_document_is_fetched_witness :
  let db := Scenario.after_session.1 in
  let s := Scenario.after_session.2 in
  let r := createDocument (Some Scenario.alice) None "d2" "v4" 400 db
             "Notes" s in
  r.2 = Ok "d2"
  /\ (doc_title <$> currentDocument (fetchDocument None r.1.1 "d2" r.1.2))
     = Some "Notes".
Proof.
  intros db s r. split; [vm_compute; reflexivity|].
  destruct (created_document_is_fetched (Some Scenario.alice) None "d2" "v4"
              400 db "Notes" s r.1.1 r.1.2 "d2" r.1.2)
    as (_ & _ & doc & Hdoc & _ & Htitle & _).
  - vm_compute. reflexivity.
  - rewrite Hdoc. simpl. by rewrite Htitle.
Defined.

(** X7.  [fetchDocument] for an id with no row, or refused by the
    service, leaves the document loaded before in place and records an
    error; with a row, it makes that row the current document. *)
Theorem fetchDocument_missing_keeps_current fault db id s :
  let s' := fetchDocument fault db id s in
  loading s' = false
  /\ documents s' = documents s /\ versions s' = versions s
  /\ match fault, db_documents db !! id with
     | None, Some doc => currentDocument s' = Some doc /\ error s' = None
     | _, _ => currentDocument s' = currentDocument s /\ is_Some (error s')
     end.
Proof.
  unfold fetchDocument, select_document.
  destruct fault as [e|]; simpl; [eauto 10|].
  destruct (db_documents db !! id); simpl; eauto 10.
Qed.

(** X8.  An update the service has carried out touches one document
    only: every other row of [documents] is as before; the row of [id],
    if there is one, keeps its id, owner and creation time and takes the
    fields sent; at most one version is appended; in the store, the ids
    in the list and the error message stay as they were, so a successful
    save does not clear an earlier error. *)
Theorem updateDocument_touches_one_document env db id updates s db' :
  request (ue_fault env)
    (update_document db id updates (ue_sent_at env) (ue_vid env) (ue_now env))
  = Ok db' ->
  let r := updateDocument env db id updates s in
  r.1 = db'
  /\ (forall id', id' ≠ id ->
                  db_documents db' !! id' = db_documents db !! id')
  /\ (forall old, db_documents db !! id = Some old ->
        exists new,
          db_documents db' !! id = Some new
          /\ doc_id new = doc_id old
          /\ doc_user_id new = doc_user_id old
          /\ doc_created_at new = doc_created_at old
          /\ doc_updated_at new = ue_now env
          /\ doc_title new = default (doc_title old) (upd_title updates)
          /\ doc_content new = default (doc_content old) (upd_content updates))
  /\ (exists extra, db_versions db' = db_versions db ++ extra
                    /\ length extra <= 1)
  /\ (doc_id <$> documents r.2) = (doc_id <$> documents s)
  /\ (doc_id <$> currentDocument r.2) = (doc_id <$> currentDocument s)
  /\ error r.2 = error s
  /\ versions r.2 = versions s.
Proof.
  intros Hreq r. subst r. unfold updateDocument. rewrite Hreq.
  apply request_ok in Hreq as [_ Hreq].
  assert (Hids : forall docs : list Document,
    (doc_id <$> map (fun doc => if String.eqb (doc_id doc) id
                                then apply_updates doc updates (ue_list_at env)
                                else doc) docs)
    = (doc_id <$> docs)).
  { induction docs as [|doc docs IH]; [done|].
    cbn in *. rewrite IH. by destruct (String.eqb (doc_id doc) id). }
  assert (Hstore :
    forall s1,
      s1 = match currentDocument s with
           | Some currentDoc =>
               if String.eqb (doc_id currentDoc) id
               then set_currentDocument
                      (Some (apply_updates currentDoc updates
                               (ue_current_at env))) s
               else s
           | None => s
           end ->
      documents s1 = documents s
      /\ (doc_id <$> currentDocument s1) = (doc_id <$> currentDocument s)
      /\ error s1 = error s /\ versions s1 = versions s).
  { intros s1 ->. destruct s as [docs [cur|] vs l vl err]; simpl; [|done].
    destruct (String.eqb (doc_id cur) id); simpl; done. }
  destruct (Hstore _ eq_refl) as (Hdocs1 & Hcur1 & Herr1 & Hvs1).
  cbn [fst snd].
  split; [reflexivity|].
  split; [|split; [|split; [|split; [|split; [|split]]]]].
  - intros id' Hne.
    apply update_document_inv in Hreq
      as [[_ ->]|(old & _ & -> & _)]; [done|].
    by rewrite lookup_insert_ne.
  - intros old Hold.
    apply update_document_inv in Hreq
      as [[Hnone _]|(old' & Hold' & -> & _)]; [congruence|].
    rewrite Hold in Hold'. injection Hold' as <-.
    eexists. rewrite lookup_insert_eq. split; [reflexivity|]. simpl. done.
  - apply update_document_inv in Hreq
      as [[_ ->]|(old & _ & _ & Htrigger)].
    + exists []. rewrite app_nil_r. split; [done|]. simpl. lia.
    + apply create_document_version_inv in Htrigger as [->|(c & -> & _)].
      * exists []. rewrite app_nil_r. split; [done|]. simpl. lia.
      * eexists. split; [reflexivity|]. simpl. lia.
  - cbn [set_documents documents]. by rewrite Hids, Hdocs1.
  - exact Hcur1.
  - exact Herr1.
  - exact Hvs1.
Qed.

Lemma updateDocument_touches_one_document_witness :
  let env := Scenario.update_env "v4" 400 in
  let db := Scenario.after_session.1 in
  let s := Scenario.after_session.2 in
  let r := updateDocument env db "d1" (Scenario.save "Final" "Bye") s in
  exists db',
    request (ue_fault env)
      (update_document db "d1" (Scenario.save "Final" "Bye")
         (ue_sent_at env) (ue_vid env) (ue_now env)) = Ok db'
    /\ r.1 = db' /\ error r.2 = error s.
Proof.
  intros env db s r.
  destruct (request (ue_fault env)
              (update_document db "d1" (Scenario.save "Final" "Bye")
                 (ue_sent_at env) (ue_vid env) (ue_now env)))
    as [db'|e] eqn:Hreq; [|vm_compute in Hreq; discriminate].
  exists db'. split; [reflexivity|].
  destruct (updateDocument_touches_one_document env db "d1"
              (Scenario.save "Final" "Bye") s db' Hreq)
    as (Hdb & _ & _ & _ & _ & _ & Herror & _).
  done.
Defined.

(** X9.  Saving the same fields again records nothing: after an update
    the service has carried out, a second update of the same document with
    the same fields succeeds, leaves the table of versions as it is and
    leaves title and content as they are. *)
Theorem repeated_save_records_nothing db id updates db1
    sent1 vid1 now1 sent2 vid2 now2 :
  update_document db id updates sent1 vid1 now1 = Ok db1 ->
  exists db2,
    update_document db1 id updates sent2 vid2 now2 = Ok db2
    /\ db_versions db2 = db_versions db1
    /\ (doc_title <$> db_documents db2 !! id)
       = (doc_title <$> db_documents db1 !! id)
    /\ (doc_content <$> db_documents db2 !! id)
       = (doc_content <$> db_documents db1 !! id).
Proof.
  intros [[Hnone ->]|(old & Hold & Hdocs & _)]%update_document_inv.
  - exists db. unfold update_document. by rewrite Hnone.
  - set (new := update_updated_at_column now1
                  (apply_updates old updates sent1)) in *.
    set (new2 := update_updated_at_column now2
                   (apply_updates new updates sent2)).
    assert (Hnew : db_documents db1 !! id = Some new)
      by (rewrite Hdocs; apply lookup_insert_eq).
    assert (Htitle : doc_title new2 = doc_title new)
      by (simpl; by destruct (upd_title updates)).
    assert (Hcontent : doc_content new2 = doc_content new)
      by (simpl; by destruct (upd_content updates)).
    exists {| db_documents := <[id := new2]> (db_documents db1);
              db_versions := db_versions db1 |}.
    unfold update_document. rewrite Hnew. fold new2.
    change UPDATE with (tg_op_of false).
    rewrite create_document_version_rules, Htitle, Hcontent.
    unfold recorder_spec. rewrite !String.eqb_refl.
    cbn [negb andb]. split; [reflexivity|].
    cbn [db_versions db_documents]. split; [reflexivity|].
    rewrite lookup_insert_eq.
    change (doc_title <$> Some new2) with (Some (doc_title new2)).
    change (doc_content <$> Some new2) with (Some (doc_content new2)).
    by rewrite Htitle, Hcontent.
Qed.

Lemma repeated_save_records_nothing_witness :
  let db := Scenario.after_session.1 in
  exists db1 db2,
    update_document db "d1" (Scenario.save "Final" "Bye") 400 "v4" 400
    = Ok db1
    /\ update_document db1 "d1" (Scenario.save "Final" "Bye") 500 "v5" 500
       = Ok db2
    /\ db_versions db2 = db_versions db1.
Proof.
  intros db.
  destruct (update_document db "d1" (Scenario.save "Final" "Bye") 400 "v4" 400)
    as [db1|e] eqn:Hfirst; [|vm_compute in Hfirst; discriminate].
  destruct (repeated_save_records_nothing db "d1" (Scenario.save "Final" "Bye")
              db1 400 "v4" 400 500 "v5" 500 Hfirst)
    as (db2 & Hsecond & Hversions & _).
  exists db1, db2. done.
Defined.

(** ** Deleting documents *)

(** X10.  After a delete the service has carried out, the store lists no
    document with that id and its current document is not that document;
    the other entries keep their order; the versions held for the history
    are not cleared; and deleting the same id once more changes nothing,
    neither in the tables nor in the store. *)
Theorem deleteDocument_removes_and_is_idempotent db id s :
  let r := deleteDocument None db id s in
  (id ∉ (doc_id <$> documents r.2))
  /\ documents r.2 = filter (fun doc => doc_id doc ≠ id) (documents s)
  /\ (forall doc, currentDocument r.2 = Some doc -> doc_id doc ≠ id)
  /\ (forall doc, currentDocument s = Some doc -> doc_id doc ≠ id ->
                  currentDocument r.2 = Some doc)
  /\ error r.2 = None /\ loading r.2 = false
  /\ versions r.2 = versions s
  /\ deleteDocument None r.1 id r.2 = r.
Proof.
  intros r. subst r. unfold deleteDocument, request.
  destruct s as [docs cur vs l vl err].
  cbn [set_error set_loading set_documents set_currentDocument documents
       currentDocument versions loading versionsLoading error fst snd].
  assert (Hfilter : filter (fun doc => doc_id doc ≠ id)
                      (filter (fun doc => doc_id doc ≠ id) docs)
                    = filter (fun doc => doc_id doc ≠ id) docs).
  { rewrite list_filter_filter. apply list_filter_iff. tauto. }
  assert (Hdb : delete_document (delete_document db id) id
                = delete_document db id).
  { unfold delete_document at 1 3. cbn [db_documents db_versions].
    unfold delete_document at 1. cbn [db_documents db_versions].
    f_equal.
    - apply delete_id. apply lookup_delete_eq.
    - unfold delete_document. cbn [db_versions].
      rewrite list_filter_filter. apply list_filter_iff. tauto. }
  assert (Habsent : id ∉ doc_id <$> filter (fun doc => doc_id doc ≠ id) docs).
  { intros [doc [-> [Hne _]%list_elem_of_filter]]%list_elem_of_fmap. done. }
  destruct cur as [cur|]; [destruct (String.eqb_spec (doc_id cur) id)|];
    cbn [set_error set_loading set_documents set_currentDocument documents
         currentDocument versions loading versionsLoading error fst snd].
  - rewrite Hfilter, Hdb. repeat split; try done. congruence.
  - destruct (String.eqb_spec (doc_id cur) id); [done|].
    cbn [set_error set_loading set_documents set_currentDocument documents
         currentDocument versions loading versionsLoading error fst snd].
    rewrite Hfilter, Hdb. repeat split; try done. by intros doc [= <-].
  - rewrite Hfilter, Hdb. repeat split; done.
Qed.

(** ** The dashboard's list *)

Global Instance updated_later_or_same_total : Total updated_later_or_same.
Proof. intros d e. unfold updated_later_or_same. lia. Qed.

(** X11.  When the service answers, [fetchDocuments] lists exactly the
    stored documents, each once, latest update first, and ends without
    error; when it fails, the list shown before stays and the error is
    recorded.  The current document and the versions are not touched. *)
Theorem fetchDocuments_lists_all fault db s :
  let s' := fetchDocuments fault db s in
  loading s' = false
  /\ currentDocument s' = currentDocument s /\ versions s' = versions s
  /\ match fault with
     | None =>
         error s' = None
         /\ Sorted updated_later_or_same (documents s')
         /\ documents s' ≡ₚ (map_to_list (db_documents db)).*2
         /\ (forall doc, doc ∈ documents s'
                         <-> exists id, db_documents db !! id = Some doc)
         /\ length (documents s') = size (db_documents db)
     | Some e =>
         documents s' = documents s
         /\ error s' = Some (error_text "Failed to fetch documents" e)
     end.
Proof.
  unfold fetchDocuments. destruct fault as [e|]; simpl; [done|].
  do 3 (split; [reflexivity|]). split; [reflexivity|].
  unfold select_documents.
  split; [apply (Sorted_merge_sort updated_later_or_same)|].
  split; [apply merge_sort_Permutation|].
  split.
  - intros doc. rewrite merge_sort_Permutation. split.
    + intros [[id doc'] [-> Hin]]%list_elem_of_fmap.
      exists id. by apply elem_of_map_to_list.
    + intros [id Hdoc]. apply list_elem_of_fmap.
      exists (id, doc). split; [done|]. by apply elem_of_map_to_list.
  - rewrite merge_sort_Permutation, length_fmap. apply length_map_to_list.
Qed.

(** ** Restores that fail, and the refresh after one that succeeds *)

Lemma restoreVersion_early_failure env db documentId versionId s e :
  request (re_select_fault env) (select_version db versionId) = Failed e
  \/ (exists version,
        request (re_select_fault env) (select_version db versionId)
        = Ok version
        /\ restore_update env db documentId version = Failed e) ->
  let r := restoreVersion env db documentId versionId s in
  r.1 = db
  /\ same_data s r.2
  /\ error r.2 = Some (error_text "Failed to restore version" e)
  /\ loading r.2 = false
  /\ versionsLoading r.2 = versionsLoading s.
Proof.
  intros [Hsel|(version & Hsel & Hupd)] r; subst r; unfold restoreVersion;
    rewrite Hsel; [done|].
  unfold restore_update in Hupd. rewrite Hupd. done.
Qed.

(** X12.  A restore whose version cannot be read (no row with that id,
    or a failure of the service) or whose document update fails changes
    nothing: the tables and the store's lists are as before, the error is
    recorded, loading is off, and no refresh of the history is started. *)
Theorem restoreVersion_fails_early env db documentId versionId s e :
  request (re_select_fault env) (select_version db versionId) = Failed e
  \/ (exists version,
        request (re_select_fault env) (select_version db versionId)
        = Ok version
        /\ restore_update env db documentId version = Failed e) ->
  let r := restoreVersion env db documentId versionId s in
  r.1 = db
  /\ same_data s r.2
  /\ error r.2 = Some (error_text "Failed to restore version" e)
  /\ loading r.2 = false
  /\ versionsLoading r.2 = versionsLoading s.
Proof. apply restoreVersion_early_failure. Qed.

Lemma restoreVersion_fails_early_witness :
  let env := Scenario.restore_env (Some Scenario.alice) None "v4" "v5" 400 in
  let db := Scenario.after_session.1 in
  let s := Scenario.after_session.2 in
  select_version db "v9" = Failed no_single_row
  /\ (restoreVersion env db "d1" "v9" s).1 = db
  /\ error (restoreVersion env db "d1" "v9" s).2
     = Some "Failed to restore version".
Proof.
  intros env db s. split; [vm_compute; reflexivity|].
  destruct (restoreVersion_fails_early env db "d1" "v9" s no_single_row)
    as (Hdb & _ & Herror & _).
  - left. vm_compute. reflexivity.
  - split; [exact Hdb|exact Herror].
Defined.

Lemma fresh_ids_two a b vs :
  fresh_ids [a; b] vs = true ->
  a ≠ b /\ unused_version_id a vs = true /\ unused_version_id b vs = true.
Proof.
  unfold fresh_ids. simpl.
  intros [Hdup Hunused]%andb_true_iff.
  apply bool_decide_eq_true in Hdup.
  apply andb_true_iff in Hunused as [Ha Hunused].
  apply andb_true_iff in Hunused as [Hb _].
  apply NoDup_cons in Hdup as [Hab _].
  repeat split; try done. intros ->. apply Hab. by left.
Qed.

Lemma restoreVersion_state_after_update env db documentId versionId s
    version db1 :
  request (re_select_fault env) (select_version db versionId) = Ok version ->
  restore_update env db documentId version = Ok db1 ->
  versionsLoading (restoreVersion env db documentId versionId s).2 = true
  /\ error (restoreVersion env db documentId versionId s).2 = None.
Proof.
  unfold restore_update. intros Hsel Hupd.
  unfold restoreVersion. rewrite Hsel, Hupd. split; reflexivity.
Qed.

(** X13.  After a restore by a signed-in user with every request
    answered, the refresh that the restore starts is pending when the
    restore returns, and once answered it shows the new [restored] entry,
    with the title and content of the version restored. *)
Theorem refresh_shows_restored env user db documentId versionId s doc version
    embed :
  restore_answered env user ->
  db_documents db !! documentId = Some doc ->
  doc_id doc = documentId ->
  select_version db versionId = Ok version ->
  fresh_ids [ue_vid (re_update env); re_insert_vid env] (db_versions db)
  = true ->
  let r := restoreVersion env db documentId versionId s in
  let s' := fetchVersionHistory_finish None embed r.1 documentId r.2 in
  versionsLoading r.2 = true
  /\ versionsLoading s' = false /\ error s' = None
  /\ exists entry,
       entry ∈ versions s'
       /\ ver_id entry = re_insert_vid env
       /\ ver_change_type entry = restored
       /\ ver_title entry = ver_title version
       /\ ver_content entry = ver_content version.
Proof.
  intros Henv Hdoc Hid Hsel (Hne & Htrigger & Hinsert)%fresh_ids_two r s'.
  destruct (restoreVersion_answered env user db documentId versionId s
              doc version) as [Hdb _]; try done.
  { by right. }
  { rewrite unused_version_id_app, Hinsert. simpl.
    rewrite automatic_version_rules.
    destruct (recorder_spec _ _ _ _ _); [|done].
    apply unused_version_id_singleton. simpl. congruence. }
  fold r in Hdb.
  assert (Hstate : versionsLoading r.2 = true /\ error r.2 = None).
  { destruct Henv as (Hf1 & Hf2 & _).
    eapply restoreVersion_state_after_update.
    - rewrite Hf1. exact Hsel.
    - apply (restore_update_answered env db documentId doc version
               Hf2 Hdoc Hid (or_intror Htrigger)). }
  destruct Hstate as [Hloading Herror].
  split; [exact Hloading|].
  subst s'. unfold fetchVersionHistory_finish, request.
  cbn [set_versionsLoading set_versions versionsLoading error versions].
  split; [reflexivity|]. split; [exact Herror|].
  exists (listed embed (restored_version env documentId version user)).
  split; [|done].
  unfold select_version_history. rewrite <- list_fmap_compose.
  apply (list_elem_of_fmap_2 (listed embed)).
  rewrite merge_sort_Permutation. apply list_elem_of_filter.
  split; [reflexivity|]. rewrite Hdb. simpl.
  rewrite !elem_of_app. right. right. by left.
Qed.

Lemma refresh_shows_restored_witness :
  let env := Scenario.restore_env (Some Scenario.alice) None "v4" "v5" 400 in
  let db := Scenario.after_session.1 in
  let r := restoreVersion env db "d1" "v1" Scenario.after_session.2 in
  let s' := fetchVersionHistory_finish None Scenario.emails r.1 "d1" r.2 in
  fresh_ids ["v4"; "v5"] (db_versions db) = true
  /\ exists entry, entry ∈ versions s' /\ ver_id entry = "v5"
                   /\ ver_change_type entry = restored.
Proof.
  intros env db r s'. split; [vm_compute; reflexivity|].
  destruct (db_documents db !! "d1") as [doc|] eqn:Hdoc;
    [|vm_compute in Hdoc; discriminate].
  destruct (select_version db "v1") as [version|] eqn:Hsel;
    [|vm_compute in Hsel; discriminate].
  assert (Hid : doc_id doc = "d1")
    by (vm_compute in Hdoc; by injection Hdoc as <-).
  destruct (refresh_shows_restored env Scenario.alice db "d1" "v1"
              Scenario.after_session.2 doc version Scenario.emails
              (conj eq_refl (conj eq_refl (conj eq_refl eq_refl)))
              Hdoc Hid Hsel eq_refl)
    as (_ & _ & _ & entry & Hin & Hentry & Hrestored & _).
  exists entry. done.
Defined.

(** ** The initial versions of existing documents *)

Lemma insert_versions_inv docs rows : forall vs vs',
  insert_versions docs vs rows = Ok vs' -> vs' = vs ++ rows.
Proof.
  induction rows as [|row rows IH]; intros vs vs'; simpl.
  - intros [= <-]. by rewrite app_nil_r.
  - destruct (insert_version docs vs row) as [vs1|] eqn:Hins; [|discriminate].
    apply insert_version_inv in Hins as [-> _].
    intros ->%IH. by rewrite <- app_assoc.
Qed.

Lemma versions_of_nonempty db id v :
  v ∈ db_versions db -> ver_document_id v = id -> versions_of db id ≠ [].
Proof.
  intros Hv Hid Hnil.
  assert (Hin : v ∈ versions_of db id)
    by (apply list_elem_of_filter; done).
  rewrite Hnil in Hin. by apply not_elem_of_nil in Hin.
Qed.

Lemma create_initial_versions_inv vid_of db db' :
  create_initial_versions vid_of db = Ok db' ->
  db_documents db' = db_documents db
  /\ db_versions db'
     = db_versions db ++ (initial_version vid_of <$> without_version db).
Proof.
  unfold create_initial_versions.
  destruct (insert_versions _ _ _) as [vs|] eqn:Hins; [|discriminate].
  apply insert_versions_inv in Hins as ->. by intros [= <-].
Qed.

Lemma migrated_has_version vid_of db db' id doc :
  (forall id doc, db_documents db !! id = Some doc -> doc_id doc = id) ->
  create_initial_versions vid_of db = Ok db' ->
  db_documents db !! id = Some doc ->
  exists v, v ∈ db_versions db' /\ ver_document_id v = id.
Proof.
  intros Hkeyed [Hdocs Hvs]%create_initial_versions_inv Hdoc.
  rewrite Hvs.
  destruct (decide (doc_id doc ∈ ver_document_id <$> db_versions db))
    as [Hhas|Hnot].
  - apply list_elem_of_fmap in Hhas as (v & Hid & Hv).
    exists v. rewrite elem_of_app. split; [by left|].
    rewrite <- Hid. by apply Hkeyed.
  - exists (initial_version vid_of doc). split; [|by apply Hkeyed].
    rewrite elem_of_app. right. apply list_elem_of_fmap_2.
    apply list_elem_of_filter. split; [exact Hnot|].
    apply list_elem_of_fmap. exists (id, doc). split; [done|].
    by apply elem_of_map_to_list.
Qed.

Lemma filter_none_elem {A} (P : A -> Prop) `{!forall x, Decision (P x)}
    (l : list A) :
  (forall x, x ∈ l -> ~ P x) -> filter P l = [].
Proof.
  induction l as [|x l IH]; [done|]. intros Hall.
  rewrite filter_cons_False by (apply Hall; by left).
  apply IH. intros y Hy. apply Hall. by right.
Qed.

Lemma without_version_covered db :
  (forall id doc, db_documents db !! id = Some doc ->
     exists v, v ∈ db_versions db /\ ver_document_id v = doc_id doc) ->
  without_version db = [].
Proof.
  intros Hall. unfold without_version. apply filter_none_elem.
  intros doc [[id doc'] [-> Hin]]%list_elem_of_fmap Hnot.
  apply elem_of_map_to_list in Hin. simpl in *.
  destruct (Hall id doc' Hin) as (v & Hv & Hid).
  apply Hnot. rewrite <- Hid. by apply list_elem_of_fmap_2.
Qed.

(** X14.  The statement that creates the initial versions, when it
    succeeds on tables whose documents are stored under their ids, leaves
    the documents and the existing versions as they are; what it appends
    are [created] snapshots, with title, content and creation time, of
    stored documents that had no version; afterwards every document has a
    version, and running the statement once more inserts nothing. *)
Theorem initial_versions_cover_documents vid_of db db' :
  (forall id doc, db_documents db !! id = Some doc -> doc_id doc = id) ->
  create_initial_versions vid_of db = Ok db' ->
  db_documents db' = db_documents db
  /\ (exists extra,
        db_versions db' = db_versions db ++ extra
        /\ forall v, v ∈ extra ->
             exists doc,
               db_documents db !! ver_document_id v = Some doc
               /\ v = initial_version vid_of doc
               /\ versions_of db (ver_document_id v) = [])
  /\ (forall id doc, db_documents db !! id = Some doc ->
                     versions_of db' id ≠ [])
  /\ (forall vid_of', create_initial_versions vid_of' db' = Ok db').
Proof.
  intros Hkeyed Hmigrate.
  pose proof (create_initial_versions_inv _ _ _ Hmigrate) as [Hdocs Hvs].
  split; [exact Hdocs|]. split; [|split].
  - eexists. split; [exact Hvs|].
    intros v [doc [-> [Hnot Hin]%list_elem_of_filter]]%list_elem_of_fmap.
    apply list_elem_of_fmap in Hin as ([id doc'] & -> & Hin).
    apply elem_of_map_to_list in Hin. simpl in *.
    exists doc'. rewrite (Hkeyed id doc' Hin). split; [exact Hin|].
    split; [reflexivity|].
    apply versions_of_none. intros v Hv Hid. apply Hnot.
    rewrite (Hkeyed id doc' Hin), <- Hid. by apply list_elem_of_fmap_2.
  - intros id doc Hdoc.
    destruct (migrated_has_version vid_of db db' id doc Hkeyed Hmigrate Hdoc)
      as (v & Hv & Hid).
    by eapply versions_of_nonempty.
  - intros vid_of'. unfold create_initial_versions.
    rewrite without_version_covered; [by destruct db'|].
    intros id doc Hdoc. rewrite Hdocs in Hdoc.
    destruct (migrated_has_version vid_of db db' id doc Hkeyed Hmigrate Hdoc)
      as (v & Hv & Hid).
    exists v. split; [done|]. rewrite Hid. symmetry. by apply Hkeyed.
Qed.

Lemma initial_versions_cover_documents_witness :
  let db := {| db_documents := db_documents Scenario.after_session.1;
               db_versions := [] |} in
  exists db',
    create_initial_versions (fun id => String.append "v-" id) db = Ok db'
    /\ versions_of db' "d1" ≠ [].
Proof.
  intros db.
  destruct (create_initial_versions (fun id => String.append "v-" id) db)
    as [db'|e] eqn:Hmigrate; [|vm_compute in Hmigrate; discriminate].
  exists db'. split; [reflexivity|].
  destruct (db_documents db !! "d1") as [doc|] eqn:Hdoc;
    [|vm_compute in Hdoc; discriminate].
  refine (proj1 (proj2 (proj2 (initial_versions_cover_documents _ db db' _
                                 Hmigrate))) "d1" doc Hdoc).
  intros id doc' Hdoc'.
  exact (keyed _ (run_consistent Scenario.session (db_empty, initial_state)
                    consistent_empty) id doc' Hdoc').
Defined.

(** X15.  A deployment that starts from existing documents and the
    initial versions is covered like one that starts empty: in every state
    the store reaches from there, each stored document has versions, the
    first of which has classification [created]. *)
Theorem migrated_documents_have_created_version vid_of db db' actions s
    id doc :
  (forall id doc, db_documents db !! id = Some doc -> doc_id doc = id) ->
  db_versions db = [] ->
  create_initial_versions vid_of db = Ok db' ->
  db_documents (run actions (db', s)).1 !! id = Some doc ->
  exists v rest,
    versions_of (run actions (db', s)).1 id = v :: rest
    /\ ver_change_type v = created.
Proof.
  intros Hkeyed Hempty Hmigrate Hdoc.
  pose proof (create_initial_versions_inv _ _ _ Hmigrate) as [Hdocs Hvs].
  rewrite Hempty in Hvs. simpl in Hvs.
  assert (Hdb' : consistent db').
  { split.
    - rewrite Hdocs. exact Hkeyed.
    - intros v. rewrite Hvs, Hdocs.
      intros [d [-> [_ Hin]%list_elem_of_filter]]%list_elem_of_fmap.
      apply list_elem_of_fmap in Hin as ([k d'] & -> & Hin).
      apply elem_of_map_to_list in Hin. simpl in *.
      rewrite (Hkeyed k d' Hin). eauto.
    - intros k d Hk. rewrite Hdocs in Hk.
      destruct (migrated_has_version vid_of db db' k d Hkeyed Hmigrate Hk)
        as (v & Hv & Hid).
      destruct (versions_of db' k) as [|v0 rest] eqn:Hlog.
      + exfalso. by eapply versions_of_nonempty.
      + exists v0, rest. split; [exact Hlog|].
        assert (Hin : v0 ∈ versions_of db' k) by (rewrite Hlog; by left).
        apply list_elem_of_filter in Hin as [_ Hin].
        rewrite Hvs in Hin.
        by apply list_elem_of_fmap in Hin as (d0 & -> & _). }
  exact (recorded _ (run_consistent actions (db', s) Hdb') id doc Hdoc).
Qed.

Lemma migrated_documents_have_created_version_witness :
  let db := {| db_documents := db_documents Scenario.after_session.1;
               db_versions := [] |} in
  let actions :=
    [UpdateDocument (Scenario.update_env "v4" 400) "d1"
       (Scenario.save "Final" "Bye")] in
  exists db' v rest,
    create_initial_versions (fun id => String.append "v-" id) db = Ok db'
    /\ versions_of (run actions (db', initial_state)).1 "d1" = v :: rest
    /\ ver_change_type v = created.
Proof.
  intros db actions.
  destruct (create_initial_versions (fun id => String.append "v-" id) db)
    as [db'|e] eqn:Hmigrate; [|vm_compute in Hmigrate; discriminate].
  destruct (db_documents (run actions (db', initial_state)).1 !! "d1")
    as [doc|] eqn:Hdoc.
  - destruct (migrated_documents_have_created_version
                (fun id => String.append "v-" id) db db' actions
                initial_state "d1" doc) as (v & rest & Hlog & Hcreated).
    + intros id doc' Hdoc'.
      exact (keyed _ (run_consistent Scenario.session
                        (db_empty, initial_state) consistent_empty)
               id doc' Hdoc').
    + reflexivity.
    + exact Hmigrate.
    + exact Hdoc.
    + exists db', v, rest. done.
  - exfalso. vm_compute in Hmigrate. injection Hmigrate as <-.
    vm_compute in Hdoc. discriminate.
Defined.

(** * Further properties of the pages *)

(** ** Previews *)

Lemma string_length_append (a b : string) :
  String.length (String.append a b) = String.length a + String.length b.
Proof.
  induction a as [|c a IH]; [done|].
  change (S (String.length (String.append a b))
          = S (String.length a) + String.length b).
  by rewrite IH.
Qed.

Lemma substring_prefix_length n : forall s,
  String.length (String.substring 0 n s) = Nat.min n (String.length s).
Proof.
  induction n as [|n IH]; intros [|c s]; simpl; try done.
  by rewrite IH.
Qed.

Lemma substring_prefix_all n : forall s,
  String.length s <= n -> String.substring 0 n s = s.
Proof.
  induction n as [|n IH]; intros [|c s]; simpl; try done; try lia.
  intros Hlen. rewrite IH; [done|lia].
Qed.

Lemma string_append_empty_r (a : string) : String.append a "" = a.
Proof.
  induction a as [|c a IH]; [done|].
  change (String c (String.append a "") = String c a). by rewrite IH.
Qed.

(** X16.  The two previews cut differently.  The dashboard's card shows
    at most 150 characters of the content and always adds the dots, also
    when nothing was cut, so it is never empty and never longer than 153.
    The history's preview shows a text of up to 100 characters whole,
    without dots, and a longer one as its first 100 characters and the
    dots, 103 characters in all; both show "Empty document" for nothing. *)
Theorem previews_cut_differently (textContent : string -> string)
    (content : string) :
  let text := textContent content in
  (card_preview content ≠ ""
   /\ String.length (card_preview content) <= 153
   /\ (content = "" -> card_preview content = "Empty document")
   /\ (content ≠ "" -> String.length content <= 150 ->
       card_preview content = String.append content "..."))
  /\ (version_preview textContent content ≠ ""
      /\ String.length (version_preview textContent content) <= 103
      /\ (text = "" -> version_preview textContent content = "Empty document")
      /\ (text ≠ "" -> String.length text <= 100 ->
          version_preview textContent content = text)
      /\ (100 < String.length text ->
          version_preview textContent content
          = String.append (String.substring 0 100 text) "..."
          /\ String.length (version_preview textContent content) = 103)).
Proof.
  intros text. split.
  - unfold card_preview. destruct (String.eqb_spec content "") as [->|Hne].
    + repeat split; try done. simpl. lia.
    + assert (Hlen : String.length
                       (String.append (String.substring 0 150 content) "...")
                     <= 153).
      { rewrite string_length_append, substring_prefix_length.
        change (String.length "...") with 3. lia. }
      split; [|split; [exact Hlen|split; [done|]]].
      * intros Hempty.
        assert (H3 : String.length
                       (String.append (String.substring 0 150 content) "...")
                     = 0) by (by rewrite Hempty).
        rewrite string_length_append in H3.
        change (String.length "...") with 3 in H3. lia.
      * intros _ Hshort. by rewrite substring_prefix_all.
  - unfold version_preview, getTextPreview. fold text.
    destruct (Nat.ltb_spec 100 (String.length text)) as [Hlong|Hshort].
    + assert (Hlen : String.length
                       (String.append (String.substring 0 100 text) "...")
                     = 103).
      { rewrite string_length_append, substring_prefix_length.
        change (String.length "...") with 3. lia. }
      destruct (String.eqb_spec
                  (String.append (String.substring 0 100 text) "...") "")
        as [Hempty|Hne].
      { rewrite Hempty in Hlen. simpl in Hlen. lia. }
      split; [exact Hne|]. split; [lia|].
      split; [intros Htext; rewrite Htext in Hlong; simpl in Hlong; lia|].
      split; [intros _ Hle; lia|]. done.
    + rewrite string_append_empty_r, substring_prefix_all by done.
      destruct (String.eqb_spec text "") as [Hempty|Hne].
      * repeat split; try done; try (simpl; lia); try (intros; lia).
      * repeat split; try done; try lia; try (intros; lia).
Qed.

(** ** The history panel *)

(** X17.  A confirmed restore closes the history panel and ends the
    "restoring" state whatever the restore did: also when the restore
    failed, with the tables untouched and the error recorded in the
    store.  A declined one changes nothing. *)
Theorem handleRestore_always_closes env db documentId version s p :
  let r := History.handleRestore true env db documentId version s p in
  History.closed r.2 = true
  /\ History.isRestoring r.2 = false
  /\ History.selectedVersion r.2 = History.selectedVersion p
  /\ (forall e,
         request (re_select_fault env) (select_version db (ver_id version))
         = Failed e ->
         r.1.1 = db
         /\ error r.1.2 = Some (error_text "Failed to restore version" e))
  /\ History.handleRestore false env db documentId version s p = (db, s, p).
Proof.
  intros r. subst r. unfold History.handleRestore. simpl.
  do 3 (split; [reflexivity|]). split; [|reflexivity].
  intros e Hsel.
  destruct (restoreVersion_early_failure env db documentId (ver_id version)
              s e (or_introl Hsel)) as (Hdb & _ & Herror & _).
  done.
Qed.

(** ** Saving from the document page *)

Lemma just_now clock_time saved now :
  (now - saved < 30000)%Z ->
  Saving.formatLastSaved clock_time (Some saved) now = "Saved just now".
Proof.
  intros Hrecent. unfold Saving.formatLastSaved.
  destruct (Z.ltb_spec ((now - saved) / 1000) 30) as [|Hge]; [done|].
  exfalso. Z.div_mod_to_equations. lia.
Qed.

(** X18.  The label of the last save, by the time elapsed since it, in
    milliseconds: under 30 s (or a clock that went back) "Saved just now";
    from 30 s the whole seconds, 30 to 59; from one minute "Saved 1 minute
    ago"; from two minutes the whole minutes, 2 to 59; from one hour the
    clock time of the save.  "Not saved" only when nothing was saved. *)
Theorem formatLastSaved_by_elapsed clock_time saved now :
  let elapsed := (now - saved)%Z in
  let label := Saving.formatLastSaved clock_time (Some saved) now in
  (elapsed < 30000 -> label = "Saved just now")%Z
  /\ (30000 <= elapsed < 60000 ->
      label = String.append "Saved "
                (String.append (pretty (elapsed / 1000)%Z) " seconds ago")
      /\ 30 <= elapsed / 1000 <= 59)%Z
  /\ (60000 <= elapsed < 120000 -> label = "Saved 1 minute ago")%Z
  /\ (120000 <= elapsed < 3600000 ->
      label = String.append "Saved "
                (String.append (pretty (elapsed / 60000)%Z) " minutes ago")
      /\ 2 <= elapsed / 60000 <= 59)%Z
  /\ (3600000 <= elapsed ->
      label = String.append "Saved at " (clock_time saved))%Z
  /\ label ≠ "Not saved"
  /\ Saving.formatLastSaved clock_time None now = "Not saved".
Proof.
  intros elapsed label.
  assert (Hminutes : (elapsed / 1000 / 60 = elapsed / 60000)%Z)
    by (rewrite Z.div_div by lia; reflexivity).
  assert (Hlabel :
    label
    = if (elapsed / 1000 <? 30)%Z then "Saved just now"
      else if (elapsed / 60000 =? 0)%Z
      then String.append "Saved "
             (String.append (pretty (elapsed / 1000)%Z) " seconds ago")
      else if (elapsed / 60000 =? 1)%Z then "Saved 1 minute ago"
      else if (elapsed / 60000 <? 60)%Z
      then String.append "Saved "
             (String.append (pretty (elapsed / 60000)%Z) " minutes ago")
      else String.append "Saved at " (clock_time saved)).
  { subst label. unfold Saving.formatLastSaved. fold elapsed.
    cbv zeta. by rewrite Hminutes. }
  split; [intros ?; by apply just_now|].
  split; [|split; [|split; [|split; [|split]]]].
  - intros Hrange. split; [|Z.div_mod_to_equations; lia].
    rewrite Hlabel.
    destruct (Z.ltb_spec (elapsed / 1000) 30);
      [exfalso; Z.div_mod_to_equations; lia|].
    destruct (Z.eqb_spec (elapsed / 60000) 0); [done|].
    exfalso. Z.div_mod_to_equations. lia.
  - intros Hrange. rewrite Hlabel.
    destruct (Z.ltb_spec (elapsed / 1000) 30);
      [exfalso; Z.div_mod_to_equations; lia|].
    destruct (Z.eqb_spec (elapsed / 60000) 0);
      [exfalso; Z.div_mod_to_equations; lia|].
    destruct (Z.eqb_spec (elapsed / 60000) 1); [done|].
    exfalso. Z.div_mod_to_equations. lia.
  - intros Hrange. split; [|Z.div_mod_to_equations; lia].
    rewrite Hlabel.
    destruct (Z.ltb_spec (elapsed / 1000) 30);
      [exfalso; Z.div_mod_to_equations; lia|].
    destruct (Z.eqb_spec (elapsed / 60000) 0);
      [exfalso; Z.div_mod_to_equations; lia|].
    destruct (Z.eqb_spec (elapsed / 60000) 1);
      [exfalso; Z.div_mod_to_equations; lia|].
    destruct (Z.ltb_spec (elapsed / 60000) 60); [done|].
    exfalso. Z.div_mod_to_equations. lia.
  - intros Hrange. rewrite Hlabel.
    destruct (Z.ltb_spec (elapsed / 1000) 30);
      [exfalso; Z.div_mod_to_equations; lia|].
    destruct (Z.eqb_spec (elapsed / 60000) 0);
      [exfalso; Z.div_mod_to_equations; lia|].
    destruct (Z.eqb_spec (elapsed / 60000) 1);
      [exfalso; Z.div_mod_to_equations; lia|].
    destruct (Z.ltb_spec (elapsed / 60000) 60); [|done].
    exfalso. Z.div_mod_to_equations. lia.
  - rewrite Hlabel.
    destruct (_ <? _)%Z; [done|]. destruct (_ =? _)%Z; [done|].
    destruct (_ =? _)%Z; [done|]. destruct (_ <? _)%Z; done.
  - reflexivity.
Qed.

Lemma formatLastSaved_by_elapsed_witness :
  (30000 <= 45250 - 0 < 60000)%Z
  /\ Saving.formatLastSaved (fun _ => "10:00") (Some 0%Z) 45250
     = "Saved 45 seconds ago".
Proof.
  split; [lia|].
  destruct (proj1 (proj2 (formatLastSaved_by_elapsed (fun _ => "10:00")
                            0 45250))) as [Hlabel _]; [lia|].
  rewrite Hlabel. vm_compute. reflexivity.
Defined.



(** ** Editing the title *)

Lemma stored_title_not_empty p : Saving.stored_title p ≠ "".
Proof.
  unfold Saving.stored_title.
  destruct (DocumentPage.currentDocument p) as [doc|]; [|done].
  by destruct (String.eqb_spec (doc_title doc) "").
Qed.

Lemma step_setTitle p t newTitle q :
  fst <$> DocumentPage.step p (t, DocumentPage.setTitle newTitle) = Some q ->
  DocumentPage.title q = newTitle.
Proof.
  unfold DocumentPage.step. simpl.
  destruct (t <? DocumentPage.clock p)%Z; [discriminate|].
  destruct (String.eqb_spec newTitle (DocumentPage.title p));
    intros [= <-]; simpl; done.
Qed.

(** X20.  Leaving the title field never leaves an empty title: after
    [handleTitleSubmit], and after Enter or Escape in
    [handleTitleKeyPress], editing is off and the title is not the empty
    string; a title that was blank is replaced by the stored title, or by
    "Untitled" when that is empty or no document is loaded; Escape takes
    the stored title in every case. *)
Theorem title_is_not_left_empty p st t q :
  (Saving.apply_event t (Saving.handleTitleSubmit p st).2 p = Some q ->
   Saving.isEditingTitle (Saving.handleTitleSubmit p st).1 = false
   /\ DocumentPage.title q ≠ ""
   /\ (blank (DocumentPage.title p) = true ->
       DocumentPage.title q = Saving.stored_title p)
   /\ (blank (DocumentPage.title p) = false ->
       DocumentPage.title q = DocumentPage.title p))
  /\ (Saving.apply_event t (Saving.handleTitleKeyPress "Escape" p st).2 p
      = Some q ->
      Saving.isEditingTitle (Saving.handleTitleKeyPress "Escape" p st).1
      = false
      /\ DocumentPage.title q = Saving.stored_title p
      /\ DocumentPage.title q ≠ "")
  /\ Saving.handleTitleKeyPress "Enter" p st = Saving.handleTitleSubmit p st.
Proof.
  split; [|split; [|reflexivity]].
  - unfold Saving.handleTitleSubmit. cbn [fst snd].
    destruct (String.eqb_spec (trim (DocumentPage.title p)) "")
      as [Hblank|Hfilled].
    + cbn [Saving.apply_event]. intros Hq%step_setTitle.
      apply trim_empty_iff in Hblank.
      split; [reflexivity|]. rewrite Hq.
      split; [apply stored_title_not_empty|]. split; [done|congruence].
    + cbn [Saving.apply_event]. intros [= <-].
      assert (Hnot : blank (DocumentPage.title p) = false).
      { destruct (blank (DocumentPage.title p)) eqn:Hb; [|done].
        by apply trim_empty_iff in Hb. }
      split; [reflexivity|]. split.
      * intros Hempty. rewrite Hempty in Hnot. discriminate.
      * split; [congruence|done].
  - cbn [Saving.handleTitleKeyPress Saving.apply_event fst snd String.eqb].
    change (String.eqb "Escape" "Enter") with false.
    change (String.eqb "Escape" "Escape") with true.
    cbn [fst snd Saving.apply_event]. intros Hq%step_setTitle.
    split; [reflexivity|]. rewrite Hq.
    split; [reflexivity|apply stored_title_not_empty].
Qed.

Lemma title_is_not_left_empty_witness :
  let p := {| DocumentPage.id := Some "d1"; DocumentPage.title := "  ";
              DocumentPage.content := "";
              DocumentPage.currentDocument := Some Scenario.opened;
              DocumentPage.timeoutId := None; DocumentPage.clock := 0 |} in
  let st := {| Saving.isEditingTitle := true; Saving.isSaving := false;
               Saving.lastSaved := None |} in
  exists q,
    Saving.apply_event 10 (Saving.handleTitleSubmit p st).2 p = Some q
    /\ DocumentPage.title q = "Draft".
Proof.
  intros p st. eexists. split; [vm_compute; reflexivity|].
  refine (proj1 (proj2 (proj2 (proj1 (title_is_not_left_empty p st 10 _) _)))
            _).
  - vm_compute. reflexivity.
  - reflexivity.
Defined.

Lemma handleRestore_always_closes_witness :
  let env := Scenario.restore_env (Some Scenario.alice) None "v4" "v5" 400 in
  let version := {| ver_id := "v9"; ver_document_id := "d1";
                    ver_title := "Old"; ver_content := "";
                    ver_change_type := created; ver_user_id := "u1";
                    ver_user_email := None; ver_created_at := 0 |} in
  let p := {| History.selectedVersion := None; History.isRestoring := false;
              History.closed := false |} in
  let r := History.handleRestore true env Scenario.after_session.1 "d1"
             version Scenario.after_session.2 p in
  History.closed r.2 = true
  /\ error r.1.2 = Some "Failed to restore version".
Proof.
  intros env version p r.
  destruct (handleRestore_always_closes env Scenario.after_session.1 "d1"
              version Scenario.after_session.2 p)
    as (Hclosed & _ & _ & Hfailed & _).
  split; [exact Hclosed|].
  refine (proj2 (Hfailed no_single_row _)).
  vm_compute. reflexivity.
Defined.

Lemma previews_cut_differently_witness :
  "Hi" ≠ "" /\ card_preview "Hi" = "Hi..."
  /\ version_preview (fun html => html) "Hi" = "Hi".
Proof.
  destruct (previews_cut_differently (fun html => html) "Hi")
    as [(_ & _ & _ & Hcard) (_ & _ & _ & Hversion & _)].
  split; [done|]. split.
  - apply Hcard; [done|]. vm_compute. lia.
  - apply Hversion; [done|]. vm_compute. lia.
Defined.

(** ** The auto-save and the title *)

Section PageRuns.
Import DocumentPage.

(** X21.  The check of the title at creation does not hold for edits:
    on a page whose document has a title, emptying the title field and
    leaving it for a second makes the auto-save send the empty title. *)
Theorem empty_title_is_autosaved p doc i t1 t2 :
  id p = Some i -> i ≠ "" ->
  currentDocument p = Some doc ->
  doc_title doc ≠ "" -> title p ≠ "" ->
  (clock p <= t1)%Z -> (t1 + 1000 <= t2)%Z ->
  exists q,
    run p [(t1, setTitle ""); (t2, timeout)]
    = Some (q, [Edited t1 "" (content p);
                Saved t2 i {| upd_title := Some "";
                              upd_content := Some (content p) |}])
    /\ timeoutId q = None.
Proof.
  intros Hid Hi Hdoc Hstored Htitle Ht1 Ht2.
  unfold run, step. cbn [fst snd].
  destruct (Z.ltb_spec t1 (clock p)) as [|_]; [lia|].
  destruct (String.eqb_spec "" (title p)) as [Hsame|_]; [congruence|].
  unfold autosave. rewrite Hdoc. cbn [clock timeoutId].
  destruct (Z.ltb_spec t2 t1) as [|_]; [lia|].
  destruct (Z.leb_spec (t1 + 1000) t2) as [_|]; [|lia].
  unfold saveDocument. cbn [id title content currentDocument].
  rewrite Hid.
  destruct (String.eqb_spec i "") as [|_]; [done|].
  destruct (String.eqb_spec "" (doc_title doc)) as [Hempty|_];
    [congruence|].
  cbn [andb]. eexists. split; reflexivity.
Qed.

Lemma empty_title_is_autosaved_witness :
  let p := {| id := Some "d1"; title := "Draft"; content := "";
              currentDocument := Some Scenario.opened;
              timeoutId := None; clock := 0 |} in
  exists q,
    run p [(100%Z, setTitle ""); (1100%Z, timeout)]
    = Some (q, [Edited 100 "" "";
                Saved 1100 "d1" {| upd_title := Some "";
                                   upd_content := Some "" |}]).
Proof.
  intros p.
  destruct (empty_title_is_autosaved p Scenario.opened "d1" 100 1100)
    as (q & Hrun & _); try done; try (simpl; lia).
  exists q. exact Hrun.
Defined.

Lemma run_snoc_inv events : forall p te q obs,
  run p (events ++ [te]) = Some (q, obs) ->
  exists p' obs' o,
    run p events = Some (p', obs') /\ step p' te = Some (q, o)
    /\ obs = obs' ++ [o].
Proof.
  induction events as [|e events IH]; intros p te q obs; simpl.
  - destruct (step p te) as [[q' o]|] eqn:Hstep; [|discriminate].
    intros [= <- <-]. exists p, [], o. done.
  - destruct (step p e) as [[p1 o1]|]; [|discriminate].
    destruct (run p1 (events ++ [te])) as [[q' os]|] eqn:Hrest;
      [|discriminate].
    intros [= <- <-].
    apply IH in Hrest as (p' & obs' & o & Hrun & Hstep & ->).
    rewrite Hrun. exists p', (o1 :: obs'), o. done.
Qed.

(** X22.  On a page opened for the id of its URL: a timer is pending
    only while a document is loaded; the id never changes; and every save
    request goes to that id, which is not empty, and sends both the title
    and the content. *)
Theorem page_saves_to_its_own_id id0 t0 events q obs :
  run (mount id0 t0) events = Some (q, obs) ->
  id q = id0
  /\ (is_Some (timeoutId q) -> is_Some (currentDocument q))
  /\ (forall t i updates,
         Saved t i updates ∈ obs ->
         id0 = Some i /\ i ≠ ""
         /\ is_Some (upd_title updates) /\ is_Some (upd_content updates)).
Proof.
  revert q obs. induction events as [|te events IH] using rev_ind;
    intros q obs.
  - simpl. intros [= <- <-]. split; [done|]. split.
    + simpl. by intros [? ?].
    + intros t i updates Hin. by apply not_elem_of_nil in Hin.
  - intros (p' & obs' & o & Hrun & Hstep & ->)%run_snoc_inv.
    destruct (IH p' obs' Hrun) as (Hid & Htimer & Hsaved).
    pose proof Hstep as Hinv. apply step_inv in Hinv as (_ & _ & Hid' & Hobs).
    split; [congruence|]. split.
    + unfold step in Hstep. destruct te as [t ev]. cbn [fst snd] in Hstep.
      destruct (t <? clock p')%Z; [discriminate|].
      destruct ev as [newTitle|newContent|[doc|]|].
      * destruct (String.eqb newTitle (title p'));
          injection Hstep as <- _; simpl; [exact Htimer|].
        destruct (currentDocument p'); [eauto|by intros [? ?]].
      * destruct (String.eqb newContent (content p'));
          injection Hstep as <- _; simpl; [exact Htimer|].
        destruct (currentDocument p'); [eauto|by intros [? ?]].
      * injection Hstep as <- _. simpl. eauto.
      * injection Hstep as <- _. simpl. by intros [? ?].
      * destruct (timeoutId p'); [|discriminate].
        destruct (_ <=? _)%Z; [|discriminate].
        injection Hstep as <- _. simpl. by intros [? ?].
    + intros t i updates [Hin|Heq%list_elem_of_singleton]%elem_of_app;
        [by eapply Hsaved|].
      subst o. destruct Hobs as (_ & Hsave & _).
      unfold saveDocument in Hsave. rewrite Hid in Hsave.
      destruct id0 as [i0|]; [|discriminate].
      destruct (currentDocument p'); [|discriminate].
      destruct (String.eqb_spec i0 ""); [discriminate|].
      destruct (_ && _); [discriminate|].
      injection Hsave as <- <-. simpl. eauto.
Qed.

Lemma page_saves_to_its_own_id_witness :
  exists q obs,
    run (mount (Some "d1") 0) Scenario.typing = Some (q, obs)
    /\ id q = Some "d1".
Proof.
  destruct (run (mount (Some "d1") 0) Scenario.typing) as [[q obs]|] eqn:Hrun;
    [|vm_compute in Hrun; discriminate].
  exists q, obs. split; [reflexivity|].
  exact (proj1 (page_saves_to_its_own_id (Some "d1") 0 Scenario.typing q obs
                  Hrun)).
Defined.

End PageRuns.

(** * Further properties of the auth store and the routes *)

Lemma settle_not_loading n s at_ :
  AuthStore.loading s = false ->
  App.settle (S (S n)) s at_ = App.settle 2 s at_
  /\ match App.settle 2 s at_ with
     | App.Navigate _ | App.Spinner => False
     | App.DashboardPage | App.DocumentPage _ => is_Some (AuthStore.user s)
     | App.LoginPage | App.SignupPage => AuthStore.user s = None
     | App.Nothing => at_ = App.other
     end.
Proof.
  intros Hloading. unfold App.settle, App.App. rewrite Hloading.
  destruct at_, (AuthStore.user s), n; simpl; rewrite ?Hloading; eauto.
Qed.

(** X23.  Once the auth store has stopped loading, every location of
    the route table settles after at most two redirects; what is then
    shown is the dashboard or a document only to a signed-in user, the
    login or signup page only to a signed-out one, and nothing only for a
    location outside the table.  While the store is loading, every
    location shows the spinner. *)
Theorem routes_guard_pages s at_ :
  (AuthStore.loading s = true -> App.App s at_ = App.Spinner)
  /\ (AuthStore.loading s = false ->
      (forall n, App.settle (2 + n) s at_ = App.settle 2 s at_)
      /\ match App.settle 2 s at_ with
         | App.Navigate _ | App.Spinner => False
         | App.DashboardPage | App.DocumentPage _ =>
             is_Some (AuthStore.user s)
         | App.LoginPage | App.SignupPage => AuthStore.user s = None
         | App.Nothing => at_ = App.other
         end).
Proof.
  split.
  - intros Hloading. unfold App.App. by rewrite Hloading.
  - intros Hloading. split.
    + intros n. by apply settle_not_loading.
    + by apply (settle_not_loading 0).
Qed.

Lemma routes_guard_pages_witness :
  let s := {| AuthStore.user := None; AuthStore.loading := false;
              AuthStore.error := None |} in
  AuthStore.loading s = false
  /\ App.settle 2 s (App.docs "d1") = App.LoginPage.
Proof.
  intros s. split; [reflexivity|].
  pose proof (proj2 (proj2 (routes_guard_pages s (App.docs "d1")) eq_refl))
    as Hshown.
  destruct (App.settle 2 s (App.docs "d1")) eqn:Hsettle; try done;
    vm_compute in Hsettle; discriminate.
Defined.

Lemma signed_out_sees_no_page s n :
  AuthStore.user s = None ->
  forall at_, App.protected (App.settle n s at_) = false.
Proof.
  intros Huser. induction n as [|n IH]; intros at_.
  - unfold App.settle, App.App. rewrite Huser.
    by destruct (AuthStore.loading s), at_.
  - cbn [App.settle]. unfold App.App at 1. rewrite Huser.
    destruct (AuthStore.loading s); [done|].
    destruct at_; try done; apply IH.
Qed.

(** X24.  Signing out, unless the call throws, removes the user and the
    error whatever the service answered, and from then on no location
    shows the dashboard or a document; a call that throws leaves the user
    signed in and records the error.  Signing up never changes who is
    signed in. *)
Theorem signOut_closes_pages s :
  (forall at_ n,
      AuthStore.user (AuthStore.signOut None s) = None
      /\ AuthStore.error (AuthStore.signOut None s) = None
      /\ App.protected (App.settle n (AuthStore.signOut None s) at_) = false)
  /\ (forall e,
         AuthStore.user (AuthStore.signOut (Some e) s) = AuthStore.user s
         /\ AuthStore.error (AuthStore.signOut (Some e) s)
            = Some (error_text "Failed to sign out" e))
  /\ (forall answer,
         AuthStore.user (AuthStore.signUp answer s) = AuthStore.user s).
Proof.
  split; [|split].
  - intros at_ n. do 2 (split; [reflexivity|]).
    by apply signed_out_sees_no_page.
  - done.
  - by intros [[u|]|e].
Qed.

(** X25.  Signing in changes the user only when the service returns one:
    then loading and error are cleared and the login location leads to
    the dashboard.  When the call fails, whoever was signed in before
    stays, loading is off, and the error recorded is never empty: the
    message of the failure, or "Failed to sign in" when it has none. *)
Theorem signIn_outcomes s :
  (forall u,
      let s' := AuthStore.signIn (Ok (Some u)) s in
      AuthStore.user s' = Some u /\ AuthStore.error s' = None
      /\ AuthStore.loading s' = false
      /\ App.settle 1 s' App.login = App.DashboardPage)
  /\ (forall e,
         let s' := AuthStore.signIn (Failed e) s in
         AuthStore.user s' = AuthStore.user s
         /\ AuthStore.loading s' = false
         /\ exists message,
              AuthStore.error s' = Some message /\ message ≠ ""
              /\ (message = "Failed to sign in"
                  \/ e = ErrorInstance message \/ e = PlainObject message)).
Proof.
  split.
  - intros u. simpl. done.
  - intros e. simpl. do 2 (split; [reflexivity|]).
    eexists. split; [reflexivity|].
    unfold AuthStore.auth_error_text.
    destruct e as [m|m]; destruct (String.eqb_spec m ""); eauto.
Qed.

(** * Creating from the dashboard, with a title *)

Lemma trimEnd_cons c s :
  trimEnd (String c s)
  = match trimEnd s with
    | EmptyString => if is_white_space c then EmptyString
                     else String c EmptyString
    | r => String c r
    end.
Proof. reflexivity. Qed.

Lemma trimEnd_idempotent s : trimEnd (trimEnd s) = trimEnd s.
Proof.
  induction s as [|c s IH]; [done|]. rewrite (trimEnd_cons c s).
  destruct (trimEnd s) as [|c' r] eqn:Hr.
  - destruct (is_white_space c) eqn:Hc; [done|].
    rewrite trimEnd_cons. cbn [trimEnd]. by rewrite Hc.
  - rewrite trimEnd_cons, IH. done.
Qed.

Lemma trimStart_trimEnd c s :
  is_white_space c = false ->
  trimStart (trimEnd (String c s)) = trimEnd (String c s).
Proof.
  intros Hc. rewrite trimEnd_cons.
  destruct (trimEnd s); rewrite ?Hc; cbn [trimStart]; by rewrite Hc.
Qed.

Lemma trimStart_head s :
  trimStart s = ""
  \/ exists c r, trimStart s = String c r /\ is_white_space c = false.
Proof.
  induction s as [|c s IH]; [by left|]. cbn [trimStart].
  destruct (is_white_space c) eqn:Hc; [exact IH|]. right. eauto.
Qed.

Lemma trim_idempotent s : trim (trim s) = trim s.
Proof.
  unfold trim.
  destruct (trimStart_head s) as [->|(c & r & -> & Hc)]; [done|].
  by rewrite trimStart_trimEnd, trimEnd_idempotent.
Qed.

(** X26.  A document created from the dashboard is stored under the
    trimmed title: for a title that is not blank, a signed-in user and an
    answered request, the stored title is [trim] of what was typed, is
    not blank and has no white space left to trim; the form is reset and
    the page moves to the new document.  When the creation fails, the
    tables are untouched and the form keeps what was typed. *)
Theorem dashboard_stores_trimmed_title user fault id vid now db page s :
  blank (newDocTitle page) = false ->
  let typed := trim (newDocTitle page) in
  let r := handleCreateDocument user fault id vid now db page s in
  (blank typed = false /\ trim typed = typed)
  /\ (forall u,
         user = Some u -> fault = None ->
         db_documents db !! id = None ->
         unused_version_id vid (db_versions db) = true ->
         db_documents r.1.1 !! id = Some (new_document id typed u now)
         /\ documents r.1.2 = new_document id typed u now :: documents s
         /\ r.2 = {| isCreating := false; newDocTitle := "";
                     location := Some (String.append "/docs/" id) |})
  /\ (forall e,
         (createDocument user fault id vid now db typed s).2 = Failed e ->
         r.1.1 = db /\ r.2 = page /\ is_Some (error r.1.2)).
Proof.
  intros Hfilled typed r.
  assert (Htyped : String.eqb typed "" = false).
  { destruct (String.eqb_spec typed "") as [Hempty|]; [|done].
    apply trim_empty_iff in Hempty. congruence. }
  split; [|split].
  - split; [|apply trim_idempotent].
    destruct (blank typed) eqn:Hb; [|done].
    apply trim_empty_iff in Hb. subst typed.
    rewrite trim_idempotent in Hb.
    apply String.eqb_neq in Htyped. done.
  - intros u -> -> Hfree Hunused. subst r. unfold handleCreateDocument.
    fold typed. rewrite Htyped.
    rewrite (createDocument_inserted u id vid now db typed s Hfree Hunused).
    cbn [fst snd db_documents documents].
    by rewrite lookup_insert_eq.
  - intros e Hfailed. subst r. unfold handleCreateDocument.
    fold typed. rewrite Htyped.
    pose proof (createDocument_outcome user fault id vid now db typed s)
      as Hout.
    destruct (createDocument user fault id vid now db typed s)
      as [[db' s'] [docId|e']]; [discriminate|].
    cbn [fst snd] in *. destruct Hout as (-> & _ & -> & _). eauto.
Qed.

Lemma dashboard_stores_trimmed_title_witness :
  let page := {| isCreating := true; newDocTitle := "  Notes ";
                 location := None |} in
  let r := handleCreateDocument (Some Scenario.alice) None "d2" "v4" 400
             Scenario.after_session.1 page Scenario.after_session.2 in
  blank (newDocTitle page) = false
  /\ (doc_title <$> db_documents r.1.1 !! "d2") = Some "Notes".
Proof.
  intros page r. split; [reflexivity|].
  destruct (proj1 (proj2 (dashboard_stores_trimmed_title
                            (Some Scenario.alice) None "d2" "v4" 400
                            Scenario.after_session.1 page
                            Scenario.after_session.2 eq_refl))
              Scenario.alice eq_refl eq_refl) as (Hdoc & _).
  - vm_compute. reflexivity.
  - vm_compute. reflexivity.
  - fold r in Hdoc. rewrite Hdoc. vm_compute. reflexivity.
Defined.

Lemma versions_reference_documents_witness :
  let db := (run Scenario.session (db_empty, initial_state)).1 in
  exists v doc,
    v ∈ db_versions db
    /\ db_documents db !! ver_document_id v = Some doc
    /\ doc_id doc = ver_document_id v.
Proof.
  intros db.
  set (v := {| ver_id := "v2"; ver_document_id := "d1";
               ver_title := "Draft"; ver_content := "Hello";
               ver_change_type := content_modified; ver_user_id := "u1";
               ver_user_email := None; ver_created_at := 200 |}).
  assert (Hin : v ∈ db_versions db).
  { apply list_elem_of_In. vm_compute. right. left. reflexivity. }
  destruct (proj1 (versions_reference_documents Scenario.session) v Hin)
    as (doc & Hdoc & Hid).
  exists v, doc. done.
Defined.

Lemma deleteDocument_removes_and_is_idempotent_witness :
  let r := deleteDocument None Scenario.after_session.1 "d1"
             Scenario.after_session.2 in
  documents r.2 = [] /\ deleteDocument None r.1 "d1" r.2 = r.
Proof.
  intros r. split; [vm_compute; reflexivity|].
  apply (deleteDocument_removes_and_is_idempotent Scenario.after_session.1
           "d1" Scenario.after_session.2).
Defined.

(** * What the document page shows after a failed save *)

Lemma updateDocument_failed_state env db id updates s e :
  request (ue_fault env)
    (update_document db id updates (ue_sent_at env) (ue_vid env) (ue_now env))
  = Failed e ->
  updateDocument env db id updates s
  = (db, set_error (Some (error_text "Failed to update document" e)) s).
Proof. intros Hfailed. unfold updateDocument. by rewrite Hfailed. Qed.

Lemma updateDocument_keeps_loading env db id updates s :
  loading (updateDocument env db id updates s).2 = loading s.
Proof.
  unfold updateDocument.
  destruct (request (ue_fault env) _) as [db'|e]; [|done].
  destruct s as [docs [cur|] vs l vl err]; simpl; [|done].
  by destruct (String.eqb (doc_id cur) id).
Qed.

(** X27.  A failed save takes the editor away, and later saves do not
    bring it back: once an update has failed with a non-empty message,
    the document page shows its error screen instead of the editor, and
    it keeps showing an error screen after any number of further updates,
    successful ones included, because no update clears the error. *)
Theorem failed_save_hides_editor env db id updates s e later :
  loading s = false ->
  request (ue_fault env)
    (update_document db id updates (ue_sent_at env) (ue_vid env) (ue_now env))
  = Failed e ->
  error_text "Failed to update document" e ≠ "" ->
  Forall (fun a => match a with
                   | UpdateDocument env' _ _ =>
                       forall e', ue_fault env' = Some e' ->
                                  error_text "Failed to update document" e'
                                  ≠ ""
                   | _ => False
                   end) later ->
  let after := updateDocument env db id updates s in
  DocumentView.render after.2
  = DocumentView.ErrorLoading (error_text "Failed to update document" e)
  /\ exists message,
       DocumentView.render (run later after).2
       = DocumentView.ErrorLoading message.
Proof.
  intros Hloading Hfailed Hmessage Hlater after. subst after.
  rewrite (updateDocument_failed_state _ _ _ _ _ _ Hfailed).
  split.
  - unfold DocumentView.render. simpl. rewrite Hloading.
    by destruct (String.eqb_spec
                   (error_text "Failed to update document" e) "").
  - assert (Hgen : forall c : DB * DocumentState,
      loading c.2 = false ->
      (exists m, error c.2 = Some m /\ m ≠ "") ->
      exists message,
        DocumentView.render (run later c).2
        = DocumentView.ErrorLoading message).
    { induction Hlater as [|a later Ha _ IH]; intros c Hl (m & Hm & Hne).
      - exists m. simpl. unfold DocumentView.render. rewrite Hl, Hm.
        by destruct (String.eqb_spec m "").
      - destruct a as [| | | | |env' id' updates'| | |]; try done.
        simpl. apply IH.
        + by rewrite updateDocument_keeps_loading.
        + unfold updateDocument.
          destruct (request (ue_fault env') _) as [db'|e'] eqn:Hreq.
          * exists m. split; [|done].
            destruct c as [dbc [docs [cur|] vs l vl err]]; simpl in *;
              [|done].
            by destruct (String.eqb (doc_id cur) id').
          * eexists. split; [reflexivity|].
            destruct (ue_fault env') as [f|] eqn:Hfault.
            -- simpl in Hreq. injection Hreq as <-. by apply Ha.
            -- simpl in Hreq. unfold update_document in Hreq.
               destruct (db_documents c.1 !! id'); [|discriminate].
               unfold create_document_version in Hreq.
               destruct (change_type_val _ _ _ _ _); [|discriminate].
               unfold insert_version in Hreq.
               destruct (existsb _ _);
                 [injection Hreq as <-; done|].
               destruct (_ !! _); [discriminate|].
               injection Hreq as <-. done. }
    apply Hgen; [exact Hloading|]. simpl. eauto.
Qed.

Lemma failed_save_hides_editor_witness :
  let env := {| ue_fault := Some (ErrorInstance "Failed to fetch");
                ue_vid := "v4"; ue_now := 400; ue_sent_at := 400;
                ue_current_at := 400; ue_list_at := 400 |} in
  let s := fetchDocument None Scenario.after_session.1 "d1"
             Scenario.after_session.2 in
  let later := [UpdateDocument (Scenario.update_env "v5" 500) "d1"
                  (Scenario.save "Final" "Bye")] in
  let after := updateDocument env Scenario.after_session.1 "d1"
                 (Scenario.save "Final" "Bye") s in
  (exists doc, DocumentView.render s = DocumentView.Editor doc)
  /\ DocumentView.render after.2
     = DocumentView.ErrorLoading "Failed to fetch"
  /\ exists message,
       DocumentView.render (run later after).2
       = DocumentView.ErrorLoading message.
Proof.
  intros env s later after. split; [vm_compute; eauto|].
  apply (failed_save_hides_editor env Scenario.after_session.1 "d1"
           (Scenario.save "Final" "Bye") s
           (ErrorInstance "Failed to fetch") later).
  - reflexivity.
  - reflexivity.
  - done.
  - repeat constructor. intros e' Hfault. discriminate.
Defined.
